(** * Data validation and chart scaling of the plotting scripts

    A shallow embedding of the three scripts of the repository:

    - [plot_annual_books_userhome.py]  (module [Books]),
    - [plot_weekly_hours_userhome.py]  (module [Hours]),
    - [text_to_image_dalle.py]         (module [Dalle]).

    The scripts are dynamically typed, read the console, print diagnostics
    and swallow every exception at each function boundary.  The embedding
    keeps all of that: values carry their run-time class, a function is a
    computation over a console (pending input lines, output trace) that
    either returns or raises, and [try ... except Exception] is a
    combinator of that monad. *)

From Stdlib Require Import ZArith QArith Qabs List String Ascii Bool Lia.
From Stdlib Require Import Floats.SpecFloat DecimalString.
Import ListNotations.

Local Open Scope string_scope.
Local Open Scope list_scope.
Local Open Scope Z_scope.

(** ** The fragment of Python the scripts run on *)

Module Py.

(** Exceptions.  An exception raised by the interpreter or a builtin is
    known by its class only (its text is the interpreter's); one raised by
    a script carries the script's message. *)
Inductive exc_class : Type :=
| EOFError | TypeError | ValueError | OverflowError | RecursionError.

Inductive exc : Type :=
| Builtin (c : exc_class)
| Raised (c : exc_class) (msg : string).

(** Binary64 floats, as IEEE 754 data. *)
Definition float := spec_float.
Definition prec : Z := 53.
Definition emax : Z := 1024.

(** Scalars, and flat lists of scalars: every object the scripts build.
    [PyLib] stands for an object owned by numpy, scipy or matplotlib (an
    array, a figure, an axis), which the scripts only pass along. *)
Inductive atom : Type :=
| PyNone
| PyBool (b : bool)
| PyInt (z : Z)
| PyFloat (f : float)
| PyStr (s : string)
| PyExc (e : exc)
| PyLib (what : string).

Inductive value : Type :=
| Scalar (a : atom)
| PyList (l : list atom).

Coercion Scalar : atom >-> value.

Inductive result (A : Type) : Type :=
| Ok (a : A)
| Raise (e : exc).
Arguments Ok {A} a.
Arguments Raise {A} e.

Definition rbind {A B} (r : result A) (k : A -> result B) : result B :=
  match r with
  | Ok a => k a
  | Raise e => Raise e
  end.

(** *** Numbers *)

(** The number a numeric object denotes: a rational, an infinity, or NaN. *)
Inductive xreal : Type :=
| XNaN
| XInf (neg : bool)
| XFin (q : Q).

Definition float_val (f : float) : xreal :=
  match f with
  | S754_nan => XNaN
  | S754_infinity s => XInf s
  | S754_zero _ => XFin 0
  | S754_finite s m e =>
      let n := cond_Zopp s (Zpos m) in
      XFin (if 0 <=? e then inject_Z (n * 2 ^ e)
            else Qmake n (Z.to_pos (2 ^ (- e))))
  end.

(** [bool] is a subclass of [int]: [True] is 1 and [False] is 0. *)
Definition int_val (a : atom) : option Z :=
  match a with
  | PyInt z => Some z
  | PyBool b => Some (if b then 1 else 0)
  | _ => None
  end.

Definition num_val (a : atom) : option xreal :=
  match a with
  | PyFloat f => Some (float_val f)
  | _ => option_map (fun z => XFin (inject_Z z)) (int_val a)
  end.

(** Comparison of two numbers; [None] when a NaN makes them unordered.
    Python compares an int with a float by their exact values. *)
Definition xcompare (x y : xreal) : option comparison :=
  match x, y with
  | XNaN, _ | _, XNaN => None
  | XInf s1, XInf s2 =>
      Some (match s1, s2 with
            | true, false => Lt
            | false, true => Gt
            | _, _ => Eq
            end)
  | XInf s, XFin _ => Some (if s then Lt else Gt)
  | XFin _, XInf s => Some (if s then Gt else Lt)
  | XFin p, XFin q => Some (p ?= q)%Q
  end.

(** The ordering operators.  Numbers compare with numbers and strings
    with strings (by code point); every other pairing is a [TypeError]. *)
Definition py_compare (a b : atom) : result (option comparison) :=
  match num_val a, num_val b with
  | Some x, Some y => Ok (xcompare x y)
  | _, _ =>
      match a, b with
      | PyStr s, PyStr t => Ok (Some (String.compare s t))
      | _, _ => Raise (Builtin TypeError)
      end
  end.

Definition py_le (a b : atom) : result bool :=
  rbind (py_compare a b) (fun c =>
  Ok (match c with Some Lt | Some Eq => true | _ => false end)).

Definition py_lt (a b : atom) : result bool :=
  rbind (py_compare a b) (fun c =>
  Ok (match c with Some Lt => true | _ => false end)).

Definition py_ge (a b : atom) : result bool :=
  rbind (py_compare a b) (fun c =>
  Ok (match c with Some Gt | Some Eq => true | _ => false end)).

Definition py_gt (a b : atom) : result bool :=
  rbind (py_compare a b) (fun c =>
  Ok (match c with Some Gt => true | _ => false end)).

(** [isinstance(x, int)] and [isinstance(x, float)]. *)
Definition isinstance_int (a : atom) : bool :=
  match a with
  | PyInt _ | PyBool _ => true
  | _ => false
  end.

Definition isinstance_float (a : atom) : bool :=
  match a with
  | PyFloat _ => true
  | _ => false
  end.

(** int to float: rounded to nearest even, [OverflowError] beyond the
    largest double. *)
Definition float_of_Z (z : Z) : result float :=
  match binary_normalize prec emax z 0 false with
  | S754_infinity _ => Raise (Builtin OverflowError)
  | f => Ok f
  end.

(** [a + b]. *)
Definition py_add (a b : atom) : result atom :=
  match a, b with
  | PyStr s, PyStr t => Ok (PyStr (String.append s t))
  | PyFloat f, PyFloat g => Ok (PyFloat (SFadd prec emax f g))
  | PyFloat f, _ =>
      match int_val b with
      | Some z => rbind (float_of_Z z) (fun g => Ok (PyFloat (SFadd prec emax f g)))
      | None => Raise (Builtin TypeError)
      end
  | _, PyFloat g =>
      match int_val a with
      | Some z => rbind (float_of_Z z) (fun f => Ok (PyFloat (SFadd prec emax f g)))
      | None => Raise (Builtin TypeError)
      end
  | _, _ =>
      match int_val a, int_val b with
      | Some x, Some y => Ok (PyInt (x + y))
      | _, _ => Raise (Builtin TypeError)
      end
  end.

(** [int(f)] of a float: truncation toward zero. *)
Definition int_of_float (f : float) : result Z :=
  match f with
  | S754_nan => Raise (Builtin ValueError)
  | S754_infinity _ => Raise (Builtin OverflowError)
  | S754_zero _ => Ok 0
  | S754_finite s m e =>
      Ok (cond_Zopp s (if 0 <=? e then Zpos m * 2 ^ e else Zpos m / 2 ^ (- e)))
  end.

(** *** Sequences *)

(** [len(x)]: lists and strings have a length. *)
Definition py_len (v : value) : result Z :=
  match v with
  | PyList l => Ok (Z.of_nat (List.length l))
  | Scalar (PyStr s) => Ok (Z.of_nat (String.length s))
  | _ => Raise (Builtin TypeError)
  end.

(** What [for x in v] goes through: the elements of a list, the
    one-character strings of a string. *)
Definition py_iter (v : value) : result (list atom) :=
  match v with
  | PyList l => Ok l
  | Scalar (PyStr s) =>
      Ok (map (fun c => PyStr (String c EmptyString)) (list_ascii_of_string s))
  | _ => Raise (Builtin TypeError)
  end.

(** [max(l)] and [min(l)]: the first element no later one beats; an
    empty list is a [ValueError]. *)
Fixpoint best_from (better : atom -> atom -> result bool)
    (cur : atom) (l : list atom) : result atom :=
  match l with
  | [] => Ok cur
  | item :: rest =>
      rbind (better item cur) (fun b =>
      best_from better (if b then item else cur) rest)
  end.

Definition py_max (l : list atom) : result atom :=
  match l with
  | [] => Raise (Builtin ValueError)
  | first :: rest => best_from py_gt first rest
  end.

Definition py_min (l : list atom) : result atom :=
  match l with
  | [] => Raise (Builtin ValueError)
  | first :: rest => best_from py_lt first rest
  end.

(** [range(start, stop, step)]: integer arguments only, a zero step is a
    [ValueError]. *)
Definition range_list (start stop step : Z) : list Z :=
  let n := if 0 <? step then (stop - start + step - 1) / step
           else (start - stop - step - 1) / (- step) in
  map (fun i => start + Z.of_nat i * step) (seq 0 (Z.to_nat n)).

Definition py_range (start stop step : atom) : result (list atom) :=
  match int_val start, int_val stop, int_val step with
  | Some a, Some b, Some c =>
      if c =? 0 then Raise (Builtin ValueError)
      else Ok (map PyInt (range_list a b c))
  | _, _, _ => Raise (Builtin TypeError)
  end.

(** *** Strings *)

(** ASCII white space as [str.split()] and [float()] see it: tab, line
    feed, vertical tab, form feed, carriage return, the four separators
    0x1c to 0x1f, and the space.  Strings are byte strings here, so the
    model is exact on ASCII text. *)
Definition is_space (c : ascii) : bool :=
  let n := nat_of_ascii c in
  ((9 <=? n) && (n <=? 13) || (28 <=? n) && (n <=? 32))%nat.

(** [s.split()]: the maximal runs of non-space characters.  [cur] holds
    the current run, reversed. *)
Fixpoint split_from (cur : list ascii) (s : list ascii) : list string :=
  match s with
  | [] =>
      match cur with
      | [] => []
      | _ => [string_of_list_ascii (rev cur)]
      end
  | c :: rest =>
      if is_space c then
        match cur with
        | [] => split_from [] rest
        | _ => string_of_list_ascii (rev cur) :: split_from [] rest
        end
      else split_from (c :: cur) rest
  end.

Definition py_split (s : string) : list string :=
  split_from [] (list_ascii_of_string s).

(** [float(s)] of a string follows the grammar of the language reference:

      floatvalue  ::= [sign] (floatnumber | "inf" | "infinity" | "nan")
      floatnumber ::= number [("e" | "E") [sign] digitpart]
      number      ::= [digitpart] "." digitpart | digitpart ["."]
      digitpart   ::= digit (["_"] digit)*

    case-insensitively, after stripping white space, and rounds the
    decimal to the nearest double, ties to even. *)
Definition is_digit (c : ascii) : bool :=
  let n := nat_of_ascii c in ((48 <=? n) && (n <=? 57))%nat.

Definition digit_val (c : ascii) : Z := Z.of_nat (nat_of_ascii c) - 48.

Definition lower (c : ascii) : ascii :=
  let n := nat_of_ascii c in
  if ((65 <=? n) && (n <=? 90))%nat then ascii_of_nat (n + 32) else c.

(** The rest of a digitpart: [acc] is the number read so far and [n] the
    count of its digits. *)
Fixpoint digits_tail (acc n : Z) (s : list ascii) : Z * Z * list ascii :=
  match s with
  | c :: rest =>
      if is_digit c then digits_tail (10 * acc + digit_val c) (n + 1) rest
      else if Ascii.eqb c "_" then
        match rest with
        | d :: rest' =>
            if is_digit d then digits_tail (10 * acc + digit_val d) (n + 1) rest'
            else (acc, n, s)
        | [] => (acc, n, s)
        end
      else (acc, n, s)
  | [] => (acc, n, s)
  end.

Definition digitpart (acc : Z) (s : list ascii) : option (Z * Z * list ascii) :=
  match s with
  | c :: rest =>
      if is_digit c then Some (digits_tail (10 * acc + digit_val c) 1 rest)
      else None
  | [] => None
  end.

(** [number]: the digits as one integer, how many of them follow the
    point, and the rest of the input. *)
Definition number (s : list ascii) : option (Z * Z * list ascii) :=
  match s with
  | "."%char :: rest => digitpart 0 rest
  | _ =>
      match digitpart 0 s with
      | Some (m, _, "."%char :: rest) =>
          match digitpart m rest with
          | Some r => Some r
          | None => Some (m, 0, rest)
          end
      | Some (m, _, rest) => Some (m, 0, rest)
      | None => None
      end
  end.

Definition sign (s : list ascii) : bool * list ascii :=
  match s with
  | "-"%char :: rest => (true, rest)
  | "+"%char :: rest => (false, rest)
  | _ => (false, s)
  end.

(** The exponent part, which must reach the end of the input. *)
Definition exponent (s : list ascii) : option Z :=
  match s with
  | [] => Some 0
  | c :: rest =>
      if Ascii.eqb (lower c) "e" then
        let '(neg, rest') := sign rest in
        match digitpart 0 rest' with
        | Some (e, _, []) => Some (cond_Zopp neg e)
        | _ => None
        end
      else None
  end.

(** The double nearest to [m * 10 ^ e], of sign [neg]. *)
Definition float_of_decimal (neg : bool) (m e : Z) : float :=
  match m with
  | Zpos p =>
      if 0 <=? e then binary_normalize prec emax (cond_Zopp neg (m * 10 ^ e)) 0 false
      else SFdiv prec emax (S754_finite neg p 0)
                           (S754_finite false (Z.to_pos (10 ^ (- e))) 0)
  | _ => S754_zero neg
  end.

Fixpoint drop_space (s : list ascii) : list ascii :=
  match s with
  | c :: rest => if is_space c then drop_space rest else s
  | [] => []
  end.

Definition strip (s : list ascii) : list ascii :=
  rev (drop_space (rev (drop_space s))).

Definition float_of_str (s : string) : result float :=
  let '(neg, body) := sign (strip (list_ascii_of_string s)) in
  let word := string_of_list_ascii (map lower body) in
  if String.eqb word "inf" || String.eqb word "infinity" then Ok (S754_infinity neg)
  else if String.eqb word "nan" then Ok S754_nan
  else
    match number body with
    | Some (m, frac, rest) =>
        match exponent rest with
        | Some e => Ok (float_of_decimal neg m (e - frac))
        | None => Raise (Builtin ValueError)
        end
    | None => Raise (Builtin ValueError)
    end.

(** *** Console and control *)

(** What a run leaves behind, in order: prompts written by [input],
    the arguments of each [print], and the calls into the plotting and
    numeric libraries with the arguments computed from the data. *)
Inductive event : Type :=
| EPrompt (s : string)
| EPrint (args : list value)
| ECall (fn : string) (args : list value).

Record world : Type := mkWorld {
  stdin : list string;
  trace : list event
}.

(** A computation: from a console to an outcome and the console after. *)
Definition M (A : Type) : Type := world -> result A * world.

Definition ret {A} (a : A) : M A := fun w => (Ok a, w).

Definition bind {A B} (m : M A) (k : A -> M B) : M B :=
  fun w =>
    match m w with
    | (Ok a, w') => k a w'
    | (Raise e, w') => (Raise e, w')
    end.

Definition raise {A} (e : exc) : M A := fun w => (Raise e, w).

Definition lift {A} (r : result A) : M A := fun w => (r, w).

(** [try: body  except Exception as e: handler e]. *)
Definition try_except {A} (body : M A) (handler : exc -> M A) : M A :=
  fun w =>
    match body w with
    | (Ok a, w') => (Ok a, w')
    | (Raise e, w') => handler e w'
    end.

Definition emit (ev : event) : M unit :=
  fun w => (Ok tt, mkWorld (stdin w) (trace w ++ [ev])).

Definition print (args : list value) : M unit := emit (EPrint args).

Definition call (fn : string) (args : list value) : M unit := emit (ECall fn args).

(** [input(prompt)]: writes the prompt, then takes the next line, or
    raises [EOFError] when there is none. *)
Definition input (prompt : string) : M string :=
  fun w =>
    let tr := trace w ++ [EPrompt prompt] in
    match stdin w with
    | line :: rest => (Ok line, mkWorld rest tr)
    | [] => (Raise (Builtin EOFError), mkWorld [] tr)
    end.

(** A [for] loop whose body updates the loop-carried variables [s]. *)
Fixpoint for_each {A S} (l : list A) (body : S -> A -> M S) (s : S) : M S :=
  match l with
  | [] => ret s
  | x :: rest => bind (body s x) (for_each rest body)
  end.

(** [str(n)] of an int, in decimal. *)
Definition str_of_int (n : Z) : string := NilZero.string_of_int (Z.to_int n).

(** A line feed, and text given line by line. *)
Definition newline : string := String (ascii_of_nat 10) EmptyString.

Definition lines (l : list string) : string := String.concat newline l.

(** [f / k] and [i - f] of a float and an int: the int is converted
    first.  The scripts divide by the literal 2 only. *)
Definition float_div_int (f : float) (k : Z) : result float :=
  rbind (float_of_Z k) (fun g => Ok (SFdiv prec emax f g)).

Definition int_sub_float (i : Z) (f : float) : result float :=
  rbind (float_of_Z i) (fun g => Ok (SFsub prec emax g f)).

(** [enumerate(l)]. *)
Definition enumerate {A} (l : list A) : list (Z * A) :=
  combine (map Z.of_nat (seq 0 (List.length l))) l.

(** [max(v)] and [min(v)] of an iterable. *)
Definition max_of (v : value) : M atom :=
  bind (lift (py_iter v)) (fun items => lift (py_max items)).

Definition min_of (v : value) : M atom :=
  bind (lift (py_iter v)) (fun items => lift (py_min items)).

Declare Scope py_scope.
Delimit Scope py_scope with py.
Notation "x <- m ;; k" := (bind m (fun x => k))
  (at level 61, m at next level, right associativity) : py_scope.
Notation "m ;; k" := (bind m (fun _ => k))
  (at level 61, right associativity) : py_scope.

End Py.

Import Py.
Local Open Scope py_scope.

(** A float literal of the source, read as the interpreter reads it. *)
Definition float_lit (s : string) : float :=
  match float_of_str s with
  | Ok f => f
  | Raise _ => S754_nan
  end.

(** ** plot_annual_books_userhome.py *)

Module Books.

(** [get_yearly_data()].  [map(float, ...)] is lazy, so each token is
    converted when the loop reaches it; the first token that fails ends
    the function in its handler, which prints and returns [None]. *)
Definition get_yearly_data : M value :=
  try_except
    (line <- input "Enter the number of books read sequentially per month: ";;
     let input_data := py_split line in
     yearly_data <-
       for_each input_data
         (fun yearly_data token =>
            books <- lift (float_of_str token);;
            n <- lift (int_of_float books);;
            ret (yearly_data ++ [PyInt (Z.abs n)]))
         [];;
     ret (PyList yearly_data))
    (fun err =>
       print [Scalar (PyStr "Error in accepting yearly data: "); Scalar (PyExc err)];;
       ret (Scalar PyNone)).

(** The test of the loop body, [isinstance(books, int) and books >= 0],
    with the short circuit of [and]. *)
Definition books_ok (books : atom) : M bool :=
  if isinstance_int books then lift (py_ge books (PyInt 0)) else ret false.

(** [verify_yearly_data(yearly_data)]. *)
Definition verify_yearly_data (yearly_data : value) : M atom :=
  try_except
    (n <- lift (py_len yearly_data);;
     if n =? 12 then
       items <- lift (py_iter yearly_data);;
       verification <-
         for_each items
           (fun verification books =>
              ok <- books_ok books;;
              ret (if ok then true else verification))
           false;;
       ret (PyBool verification)
     else
       print [Scalar (PyStr "The data list should have 12 elements, each corresponding sequentially to books read in a month.")];;
       ret (PyBool false))
    (fun error =>
       print [Scalar (PyExc error)];;
       ret (PyBool false)).

(** [smooth_data(x_axis, y_axis, num_points)].  The interpolant and the
    sample grid belong to scipy and numpy: the calls are recorded with
    their arguments, and what they return is passed along unopened. *)
Definition smooth_data (x_axis y_axis : value) (num_points : Z) : M (atom * atom) :=
  call "interp1d" [x_axis; y_axis; Scalar (PyStr "cubic")];;
  lo <- min_of x_axis;;
  hi <- max_of x_axis;;
  call "np.linspace" [Scalar lo; Scalar hi; Scalar (PyInt num_points)];;
  call "interpolated_fn" [Scalar (PyLib "x_smooth")];;
  ret (PyLib "x_smooth", PyLib "y_smooth").

(** [calculate_ytick_interval(max_value)]. *)
Definition calculate_ytick_interval (max_value : atom) : M atom :=
  try_except
    (c10 <- lift (py_le max_value (PyInt 10));;
     if c10 then ret (PyInt 1) else
     c50 <- lift (py_le max_value (PyInt 50));;
     if c50 then ret (PyInt 5) else
     c100 <- lift (py_le max_value (PyInt 100));;
     if c100 then ret (PyInt 10) else
     c500 <- lift (py_le max_value (PyInt 500));;
     if c500 then ret (PyInt 50) else
     ret (PyInt 100))
    (fun error =>
       print [Scalar (PyExc error)];;
       ret PyNone).

(** [plot_books_per_month(books_read)].  The calls into matplotlib and
    numpy are recorded in source order, with the arguments that are
    computed from the data; styling arguments are left out, and the loop
    over the spines is recorded as one call. *)
Definition plot_books_per_month (books_read : value) : M atom :=
  try_except
    (n <- lift (py_len books_read);;
     if negb (n =? 12) then
       raise (Raised ValueError "The length of books_read lists must be 12.")
     else
     let months := PyList (map PyInt [1; 2; 3; 4; 5; 6; 7; 8; 9; 10; 11; 12]) in
     call "plt.subplots" [];;
     call "LinearSegmentedColormap.from_list" [];;
     call "np.linspace" [Scalar (PyInt 0); Scalar (PyInt 1); Scalar (PyInt 256)];;
     call "np.vstack" [];;
     m <- max_of books_read;;
     ytick_interval <- calculate_ytick_interval m;;
     m <- max_of books_read;;
     top <- lift (py_add m ytick_interval);;
     call "ax.imshow" [PyList [PyInt 0; PyInt 12; PyInt 0; top]];;
     smooth <- smooth_data months books_read 100;;
     call "ax.plot" [Scalar (fst smooth); Scalar (snd smooth)];;
     call "ax.scatter" [months; books_read];;
     call "ax.set_xlim" [Scalar (PyInt 1); Scalar (PyInt 12)];;
     m <- max_of books_read;;
     top <- lift (py_add m ytick_interval);;
     call "ax.set_ylim" [Scalar (PyInt 0); Scalar top];;
     xticks <- lift (py_range (PyInt 1) (PyInt 13) (PyInt 1));;
     call "ax.set_xticks" [PyList xticks];;
     call "ax.yaxis.set_label_position" [];;
     call "ax.yaxis.tick_right" [];;
     call "ax.tick_params" [];;
     call "ax.set_xticklabels" [];;
     m <- max_of books_read;;
     top <- lift (py_add m ytick_interval);;
     yticks <- lift (py_range (PyInt 0) top ytick_interval);;
     call "ax.set_yticks" [PyList yticks];;
     m <- max_of books_read;;
     top <- lift (py_add m ytick_interval);;
     yticks <- lift (py_range (PyInt 0) top ytick_interval);;
     call "ax.set_yticklabels" [PyList yticks];;
     call "fig.patch.set_facecolor" [];;
     call "ax.spines.values" [];;
     call "ax.grid" [];;
     call "plt.tight_layout" [];;
     call "plt.show" [];;
     ret PyNone)
    (fun err =>
       print [Scalar (PyExc err)];;
       ret PyNone).

(** [main()].  [ver is True] holds of the object [True] only. *)
Definition main : M atom :=
  try_except
    (books_read <- get_yearly_data;;
     ver <- verify_yearly_data books_read;;
     match ver with
     | PyBool true => plot_books_per_month books_read;; ret PyNone
     | _ => ret PyNone
     end)
    (fun err =>
       print [Scalar (PyExc err)];;
       ret PyNone).

End Books.

(** ** plot_weekly_hours_userhome.py *)

Module Hours.

(** [get_weekly_data()]: no handler here, a bad token raises to the
    caller.  [float(hours)] of a float is that float. *)
Definition get_weekly_data : M value :=
  line <- input "Enter hours read sequentially per day for a week (between 0.0 and 24.0): ";;
  let input_data := py_split line in
  weekly_data <-
    for_each input_data
      (fun weekly_data token =>
         hours <- lift (float_of_str token);;
         ret (weekly_data ++ [PyFloat hours]))
      [];;
  ret (PyList weekly_data).

(** The test of the loop body,
    [isinstance(hours, float) and 0.0 < hours < 24.00]: the chain is
    [0.0 < hours and hours < 24.00], each [and] with its short circuit. *)
Definition hours_ok (hours : atom) : M bool :=
  if isinstance_float hours then
    lo <- lift (py_lt (PyFloat (float_lit "0.0")) hours);;
    if lo then lift (py_lt hours (PyFloat (float_lit "24.00"))) else ret false
  else ret false.

(** [verify_weekly_data(weekly_data)]. *)
Definition verify_weekly_data (weekly_data : value) : M atom :=
  try_except
    (n <- lift (py_len weekly_data);;
     if n =? 7 then
       items <- lift (py_iter weekly_data);;
       verification <-
         for_each items
           (fun verification hours =>
              ok <- hours_ok hours;;
              ret (if ok then true else verification))
           false;;
       ret (PyBool verification)
     else
       print [Scalar (PyStr "The data list should have 7 elements, each corresponding sequentially to a day of the week.")];;
       ret (PyBool false))
    (fun error =>
       print [Scalar (PyExc error)];;
       ret (PyBool false)).

(** [calculate_ytick_interval(max_value)]. *)
Definition calculate_ytick_interval (max_value : atom) : M atom :=
  try_except
    (c5 <- lift (py_le max_value (PyInt 5));;
     if c5 then ret (PyInt 1) else
     c10 <- lift (py_le max_value (PyInt 10));;
     if c10 then ret (PyInt 2) else
     c15 <- lift (py_le max_value (PyInt 15));;
     if c15 then ret (PyInt 3) else
     c20 <- lift (py_le max_value (PyInt 20));;
     if c20 then ret (PyInt 4) else
     c24 <- lift (py_le max_value (PyInt 24));;
     if c24 then ret (PyInt 5) else
     ret (PyInt 8))
    (fun error =>
       print [Scalar (PyExc error)];;
       ret PyNone).

(** [plot_hours_spent_per_day(hours_spent)].  The calls into matplotlib
    and numpy are recorded in source order, with the arguments that are
    computed from the data; styling arguments are left out.  The tick
    labels are built from the array [np.arange] returns, which stays
    numpy's: the loop that formats them has no effect of its own and
    [hr_list] is passed along unopened. *)
Definition days : list atom :=
  map PyStr ["M"; "T"; "W"; "T "; "F"; "S"; "S "].

Definition bar_width : float := float_lit "0.4".

Definition plot_hours_spent_per_day (hours_spent : value) : M atom :=
  try_except
    (n <- lift (py_len hours_spent);;
     if negb (n =? 7) then
       raise (Raised ValueError "The length hours_spent lists must be equal to 7, corresponding to 7 days of a week.")
     else
     call "plt.subplots" [];;
     call "LinearSegmentedColormap.from_list" [];;
     call "np.linspace" [Scalar (PyInt 0); Scalar (PyInt 1); Scalar (PyInt 256)];;
     call "np.vstack" [];;
     m <- max_of hours_spent;;
     ytick_interval <- calculate_ytick_interval m;;
     m <- max_of hours_spent;;
     top <- lift (py_add m (PyInt 1));;
     call "ax.imshow"
       [PyList [PyFloat (float_lit "-0.5"); PyFloat (float_lit "6.5"); PyInt 0; top]];;
     items <- lift (py_iter hours_spent);;
     for_each (enumerate (combine days items))
       (fun _ entry =>
          let '(i, (day, hours)) := entry in
          half <- lift (float_div_int bar_width 2);;
          x <- lift (int_sub_float i half);;
          call "FancyBboxPatch"
            [PyList [PyFloat x; PyInt 0]; Scalar (PyFloat bar_width); Scalar hours];;
          call "ax.add_patch" [Scalar (PyLib "bbox")])
       tt;;
     m <- max_of hours_spent;;
     top <- lift (py_add m (PyInt 1));;
     call "np.arange" [Scalar (PyInt 0); Scalar top; Scalar ytick_interval];;
     call "ax.set_xlim"
       [Scalar (PyFloat (float_lit "-0.5")); Scalar (PyFloat (float_lit "6.5"))];;
     m <- max_of hours_spent;;
     top <- lift (py_add m (PyInt 1));;
     call "ax.set_ylim" [Scalar (PyInt 0); Scalar top];;
     xticks <- lift (py_range (PyInt 0) (PyInt 7) (PyInt 1));;
     call "ax.set_xticks" [PyList xticks];;
     call "ax.set_xticklabels" [PyList days];;
     m <- max_of hours_spent;;
     top <- lift (py_add m (PyInt 1));;
     call "np.arange" [Scalar (PyInt 0); Scalar top; Scalar ytick_interval];;
     call "ax.set_yticks" [Scalar (PyLib "np.arange")];;
     call "ax.set_yticklabels" [Scalar (PyLib "hr_list")];;
     call "ax.yaxis.tick_left" [];;
     call "ax.yaxis.set_ticks_position" [];;
     call "ax.tick_params" [];;
     call "ax.tick_params" [];;
     call "ax.set_xlabel" [];;
     call "ax.set_ylabel" [];;
     call "fig.patch.set_facecolor" [];;
     call "ax.spines.values" [];;
     call "ax.grid" [];;
     call "plt.show" [];;
     ret PyNone)
    (fun error =>
       print [Scalar (PyExc error)];;
       ret PyNone).

(** [main()]. *)
Definition main : M atom :=
  try_except
    (weekly_data <- get_weekly_data;;
     ver <- verify_weekly_data weekly_data;;
     match ver with
     | PyBool true => plot_hours_spent_per_day weekly_data;; ret PyNone
     | _ => ret PyNone
     end)
    (fun error =>
       print [Scalar (PyExc error)];;
       ret PyNone).

End Hours.

(** ** text_to_image_dalle.py *)

Module Dalle.

(** The guard of the reprompt, [0 >= len(sel_text) > 600], which is the
    chain [0 >= len(sel_text) and len(sel_text) > 600]. *)
Definition length_guard (sel_text : string) : bool :=
  let n := Z.of_nat (String.length sel_text) in
  (0 >=? n) && (n >? 600).

(** The prompt of [input], which ends in a line feed. *)
Definition selected_text_prompt : string :=
  String.append
    "Paste your selected text here (should be less than a 600 characters):"
    (String (ascii_of_nat 10) EmptyString).

(** [get_selected_text()].  The function calls itself on a rejected
    text; [depth] is the number of frames the interpreter still grants,
    and a call beyond it raises [RecursionError] in the caller. *)
Fixpoint get_selected_text (depth : nat) : M atom :=
  match depth with
  | O => raise (Builtin RecursionError)
  | S depth' =>
      try_except
        (sel_text <- input selected_text_prompt;;
         if length_guard sel_text then
           print [Scalar (PyStr "Selected text cannot be empty nor can it exceed 1000 charcters!")];;
           sel_text <- get_selected_text depth';;
           ret sel_text
         else ret (PyStr sel_text))
        (fun err =>
           print [Scalar (PyStr "Error encountered: "); Scalar (PyExc err)];;
           ret PyNone)
  end.

(** The menu that [input] writes. *)
Definition menu : string :=
  lines
    ["Given below are some prompts to visualize the selected text,";
     "                you can select any of them or write your own prompt- ";
     "";
     "                1. Create a highly detailed and vibrant image that captures the essence ";
     "                of the following description, considering all elements and nuances mentioned: Press 1";
     "";
     "                2. Generate a realistic and intricate visual representation based on this ";
     "                prompt, ensuring to include all key details and characteristics described: Press 2";
     "";
     "                3. Visualize the scene described in the following text with great attention";
     "                to detail, focusing on accurately depicting the environment, characters, ";
     "                and any specific features mentioned: Press 3";
     "";
     "                4. Illustrate the following concept as described, with a high level of";
     "                detail and precision, ensuring that all aspects of the text ";
     "                are faithfully represented: Press 4";
     "";
     "                5. Write your own custom prompt: Press 5";
     "";
     "                Your Choice: ";
     "                "].

(** The prompt of choice 1. *)
Definition prompt_1 : string :=
  lines
    ["Create a highly detailed and vibrant image that captures the essence";
     "                                nuances mentioned.";
     ""].

(** The prompt of choice 2. *)
Definition prompt_2 : string :=
  lines
    ["Generate a realistic and intricate visual representation based";
     "                                on this prompt, ensuring to include all key details and ";
     "                                characteristics described.";
     ""].

(** The prompt of choice 3. *)
Definition prompt_3 : string :=
  lines
    ["Generate a realistic and intricate visual";
     "                                representation based on this prompt, ensuring ";
     "                                to include all key details and characteristics ";
     "                                described.";
     ""].

(** The prompt of choice 4. *)
Definition prompt_4 : string :=
  lines
    ["Illustrate the following concept as described,";
     "                                with a high level of detail and precision,";
     "                                ensuring that all aspects of the text are";
     "                                faithfully represented.";
     ""].

(** The message of a custom prompt that is too long:
    [".. it has {} characters.\n Try again".format(len(sel_prompt))]. *)
Definition too_long_message (n : Z) : string :=
  String.append "Your prompt exceed the 300 character limit, it has "
    (String.append (str_of_int n)
       (String.append " characters." (String.append newline " Try again"))).

(** [get_user_prompts()].  [match choice] compares the line read with
    each literal in turn.  As in [get_selected_text], [depth] is the
    number of frames left for the calls the function makes to itself. *)
Fixpoint get_user_prompts (depth : nat) : M atom :=
  match depth with
  | O => raise (Builtin RecursionError)
  | S depth' =>
      try_except
        (choice <- input menu;;
         if String.eqb choice "1" then ret (PyStr prompt_1)
         else if String.eqb choice "2" then ret (PyStr prompt_2)
         else if String.eqb choice "3" then ret (PyStr prompt_3)
         else if String.eqb choice "4" then ret (PyStr prompt_4)
         else if String.eqb choice "5" then
           sel_prompt <- input (String.append "Your prompt within 280 characters: " newline);;
           let sel_prompt := String.append (String.append sel_prompt ".") newline in
           if Z.of_nat (String.length sel_prompt) >? 280 then
             print [Scalar (PyStr (too_long_message (Z.of_nat (String.length sel_prompt))))];;
             sel_prompt <- get_user_prompts depth';;
             ret sel_prompt
           else ret (PyStr sel_prompt)
         else
           print [Scalar (PyStr "Invalid input for prompt selection, please try again.")];;
           sel_prompt <- get_user_prompts depth';;
           ret sel_prompt)
        (fun err =>
           print [Scalar (PyStr "Error encountered: "); Scalar (PyExc err)];;
           ret PyNone)
  end.

(** [get_complete_prompt(sel_text, user_prompt)]:
    [user_prompt + " Description: " + sel_text], from left to right. *)
Definition get_complete_prompt (sel_text user_prompt : atom) : M atom :=
  try_except
    (head <- lift (py_add user_prompt (PyStr " Description: "));;
     complete_prompt <- lift (py_add head sel_text);;
     ret complete_prompt)
    (fun err =>
       print [Scalar (PyStr "Error encountered: "); Scalar (PyExc err)];;
       ret (PyBool false)).

End Dalle.

(** ** Vocabulary of the properties *)

(** A non-negative integer object. *)
Definition nonneg_int (a : atom) : bool :=
  match int_val a with
  | Some z => 0 <=? z
  | None => false
  end.

(** The greatest element of a list of integers. *)
Definition maximum (l : list Z) : Z :=
  match l with
  | [] => 0
  | first :: rest => fold_left Z.max rest first
  end.

(** The upper bounds of the y axis a run hands to the renderer: the
    fourth entry of each [imshow] extent and the second argument of each
    [set_ylim]. *)
Fixpoint axis_upper_bounds (tr : list event) : list atom :=
  match tr with
  | [] => []
  | ECall fn args :: rest =>
      let here :=
        if String.eqb fn "ax.imshow" then
          match args with
          | [PyList [_; _; _; top]] => [top]
          | _ => []
          end
        else if String.eqb fn "ax.set_ylim" then
          match args with
          | [_; Scalar top] => [top]
          | _ => []
          end
        else [] in
      here ++ axis_upper_bounds rest
  | _ :: rest => axis_upper_bounds rest
  end.

(** The monthly scale of the specification, on integers. *)
Definition monthly_scale (m : Z) : Z :=
  if m <=? 10 then 1
  else if m <=? 50 then 5
  else if m <=? 100 then 10
  else if m <=? 500 then 50
  else 100.

(** What the collector makes of one token, [abs(int(float(token)))],
    and of a line of tokens, stopping at the first that fails. *)
Definition coerce (token : string) : result atom :=
  rbind (float_of_str token) (fun books =>
  rbind (int_of_float books) (fun n =>
  Ok (PyInt (Z.abs n)))).

Fixpoint coerce_all (tokens : list string) : result (list atom) :=
  match tokens with
  | [] => Ok []
  | token :: rest =>
      rbind (coerce token) (fun a =>
      rbind (coerce_all rest) (fun l =>
      Ok (a :: l)))
  end.

Definition books_prompt : string :=
  "Enter the number of books read sequentially per month: ".

(** The x axis of the monthly chart, and the line of the end-to-end
    example. *)
Definition months : value :=
  PyList (map PyInt [1; 2; 3; 4; 5; 6; 7; 8; 9; 10; 11; 12]).

Definition twelve_months_line : string := "1 2 3 4 5 6 7 8 9 10 11 12".

Definition books_shape_message : string :=
  "The data list should have 12 elements, each corresponding sequentially to books read in a month.".

Definition one_to_twelve : list atom :=
  map PyInt [1; 2; 3; 4; 5; 6; 7; 8; 9; 10; 11; 12].

(** The library calls and the printed lines of a trace, in order. *)
Definition calls (tr : list event) : list string :=
  flat_map (fun ev => match ev with ECall fn _ => [fn] | _ => [] end) tr.



(** A float whose value lies strictly between 0 and 24. *)
Definition in_day (a : atom) : bool :=
  match a with
  | PyFloat f =>
      match float_val f with
      | XFin q =>
          match (0 ?= q)%Q, (q ?= 24)%Q with
          | Lt, Lt => true
          | _, _ => false
          end
      | _ => false
      end
  | _ => false
  end.

(** What the weekly collector makes of a line of tokens. *)
Fixpoint as_floats (tokens : list string) : result (list atom) :=
  match tokens with
  | [] => Ok []
  | token :: rest =>
      rbind (float_of_str token) (fun hours =>
      rbind (as_floats rest) (fun l =>
      Ok (PyFloat hours :: l)))
  end.

Definition hours_prompt : string :=
  "Enter hours read sequentially per day for a week (between 0.0 and 24.0): ".

Definition hours_shape_message : string :=
  "The data list should have 7 elements, each corresponding sequentially to a day of the week.".

(** The events of a monthly chart, given the data, the top of the y axis
    and the ticks. *)
Definition books_plot_trace (books_read : value) (top : atom) (yticks : list atom)
  : list event :=
  [ECall "plt.subplots" [];
   ECall "LinearSegmentedColormap.from_list" [];
   ECall "np.linspace" [Scalar (PyInt 0); Scalar (PyInt 1); Scalar (PyInt 256)];
   ECall "np.vstack" [];
   ECall "ax.imshow" [PyList [PyInt 0; PyInt 12; PyInt 0; top]];
   ECall "interp1d" [months; books_read; Scalar (PyStr "cubic")];
   ECall "np.linspace" [Scalar (PyInt 1); Scalar (PyInt 12); Scalar (PyInt 100)];
   ECall "interpolated_fn" [Scalar (PyLib "x_smooth")];
   ECall "ax.plot" [Scalar (PyLib "x_smooth"); Scalar (PyLib "y_smooth")];
   ECall "ax.scatter" [months; books_read];
   ECall "ax.set_xlim" [Scalar (PyInt 1); Scalar (PyInt 12)];
   ECall "ax.set_ylim" [Scalar (PyInt 0); Scalar top];
   ECall "ax.set_xticks" [months];
   ECall "ax.yaxis.set_label_position" [];
   ECall "ax.yaxis.tick_right" [];
   ECall "ax.tick_params" [];
   ECall "ax.set_xticklabels" [];
   ECall "ax.set_yticks" [PyList yticks];
   ECall "ax.set_yticklabels" [PyList yticks];
   ECall "fig.patch.set_facecolor" [];
   ECall "ax.spines.values" [];
   ECall "ax.grid" [];
   ECall "plt.tight_layout" [];
   ECall "plt.show" []].




(** What [get_user_prompts] may return: [None], or a prompt of at most
    280 characters. *)
Definition good_prompt (a : atom) : Prop :=
  a = PyNone \/ exists s, a = PyStr s /\ (String.length s <= 280)%nat.

(** A line of [n] letters. *)
Definition letters (n : nat) : string := string_of_list_ascii (repeat "a"%char n).

(** ** Comparisons on numbers *)

Section Comparisons.

Lemma compare_inject_Z (x y : Z) :
  (inject_Z x ?= inject_Z y)%Q = (x ?= y).
Proof.
  unfold Qcompare, inject_Z. cbn [Qnum Qden]. now rewrite !Z.mul_1_r.
Qed.

Lemma py_compare_int (a b : atom) (x y : Z) :
  int_val a = Some x -> int_val b = Some y ->
  py_compare a b = Ok (Some (x ?= y)).
Proof.
  intros Ha Hb. unfold py_compare.
  assert (Na : num_val a = Some (XFin (inject_Z x))).
  { destruct a; cbn in Ha |- *; try discriminate; now inversion Ha. }
  assert (Nb : num_val b = Some (XFin (inject_Z y))).
  { destruct b; cbn in Hb |- *; try discriminate; now inversion Hb. }
  rewrite Na, Nb. cbn. now rewrite compare_inject_Z.
Qed.

Lemma py_ge_int (a : atom) (x y : Z) :
  int_val a = Some x -> py_ge a (PyInt y) = Ok (y <=? x).
Proof.
  intros Ha. unfold py_ge. rewrite (py_compare_int a (PyInt y) x y Ha eq_refl).
  cbn. rewrite Z.leb_compare, (Z.compare_antisym x y).
  now destruct (x ?= y).
Qed.

Lemma py_gt_int (x y : Z) : py_gt (PyInt x) (PyInt y) = Ok (y <? x).
Proof.
  unfold py_gt. rewrite (py_compare_int (PyInt x) (PyInt y) x y eq_refl eq_refl).
  cbn. unfold Z.ltb. rewrite (Z.compare_antisym x y).
  now destruct (x ?= y).
Qed.

(** Against an integer bound, a finite number compares as its value. *)
Lemma py_le_fin (a : atom) (q : Q) (k : Z) :
  num_val a = Some (XFin q) ->
  py_le a (PyInt k) = Ok (Qle_bool q (inject_Z k)).
Proof.
  intros Ha. unfold py_le, py_compare. rewrite Ha. reflexivity.
Qed.

Lemma py_le_true (a : atom) (q : Q) (k : Z) :
  num_val a = Some (XFin q) -> (q <= inject_Z k)%Q ->
  py_le a (PyInt k) = Ok true.
Proof.
  intros Ha L. rewrite (py_le_fin a q k Ha). f_equal. now apply Qle_bool_iff.
Qed.

Lemma py_le_false (a : atom) (q : Q) (k : Z) :
  num_val a = Some (XFin q) -> (inject_Z k < q)%Q ->
  py_le a (PyInt k) = Ok false.
Proof.
  intros Ha L. rewrite (py_le_fin a q k Ha). f_equal.
  destruct (Qle_bool q (inject_Z k)) eqn:E; [|reflexivity].
  apply Qle_bool_iff in E. exfalso. exact (Qlt_not_le _ _ L E).
Qed.

Lemma py_le_posinf (a : atom) (k : Z) :
  num_val a = Some (XInf false) -> py_le a (PyInt k) = Ok false.
Proof.
  intros Ha. unfold py_le, py_compare. now rewrite Ha.
Qed.

End Comparisons.

(** ** The monthly validator *)

Section MonthlyValidator.

(** The test of the loop body never raises and leaves the console alone. *)
Lemma books_ok_run (a : atom) (w : world) :
  Books.books_ok a w = (Ok (nonneg_int a), w).
Proof.
  unfold Books.books_ok, nonneg_int.
  destruct a as [ | b | z | f | s | e | what]; try reflexivity.
  - cbn [isinstance_int]. unfold lift.
    now rewrite (py_ge_int (PyBool b) (if b then 1 else 0) 0 eq_refl).
  - cbn [isinstance_int]. unfold lift.
    now rewrite (py_ge_int (PyInt z) z 0 eq_refl).
Qed.

(** The loop raises the flag at the first element that passes the test
    and never lowers it. *)
Lemma books_loop_run (items : list atom) (flag : bool) (w : world) :
  for_each items
    (fun verification books =>
       ok <- Books.books_ok books;;
       ret (if ok then true else verification))
    flag w
  = (Ok (flag || existsb nonneg_int items), w).
Proof.
  revert flag. induction items as [ | a items IH]; intros flag.
  - cbn. now rewrite orb_false_r.
  - cbn [for_each existsb]. unfold bind at 1. unfold bind at 1.
    rewrite books_ok_run. unfold ret at 1. rewrite IH.
    destruct (nonneg_int a), flag; reflexivity.
Qed.

Lemma verify_yearly_data_of_12 (l : list atom) (w : world) :
  List.length l = 12%nat ->
  Books.verify_yearly_data (PyList l) w = (Ok (PyBool (existsb nonneg_int l)), w).
Proof.
  intros Hlen. unfold Books.verify_yearly_data, try_except.
  unfold bind at 1. cbn [py_len lift]. rewrite Hlen. cbn [Z.of_nat Z.eqb Pos.of_succ_nat Pos.succ Pos.eqb].
  unfold bind at 1. cbn [py_iter lift]. unfold bind at 1.
  now rewrite books_loop_run.
Qed.

(** C5.  A list whose length is not 12 is rejected whatever it holds:
    [verify_yearly_data] returns [False], and its only effect is to print
    the message that describes the expected shape. *)
Theorem verify_yearly_data_wrong_length (l : list atom) (w : world) :
  List.length l <> 12%nat ->
  Books.verify_yearly_data (PyList l) w
  = (Ok (PyBool false),
     mkWorld (stdin w) (trace w ++ [EPrint [Scalar (PyStr books_shape_message)]])).
Proof.
  intros Hlen. unfold Books.verify_yearly_data, try_except.
  unfold bind at 1. cbn [py_len lift].
  destruct (Z.of_nat (List.length l) =? 12) eqn:E.
  - apply Z.eqb_eq in E. lia.
  - reflexivity.
Qed.

Lemma verify_yearly_data_wrong_length_witness :
  Books.verify_yearly_data (PyList [PyInt 1; PyInt 2; PyInt 3]) (mkWorld [] [])
  = (Ok (PyBool false),
     mkWorld [] [EPrint [Scalar (PyStr books_shape_message)]]).
Proof.
  apply (verify_yearly_data_wrong_length [PyInt 1; PyInt 2; PyInt 3] (mkWorld [] [])).
  simpl. lia.
Defined.

(** C2.  Any-match policy: a list of exactly 12 elements with at least
    one non-negative int among them is accepted, whatever the other
    eleven are; [verify_yearly_data] returns [True] and prints nothing. *)
Theorem verify_yearly_data_any_match (l : list atom) (w : world) :
  List.length l = 12%nat ->
  (exists z, In (PyInt z) l /\ 0 <= z) ->
  Books.verify_yearly_data (PyList l) w = (Ok (PyBool true), w).
Proof.
  intros Hlen [z [Hin Hz]].
  rewrite (verify_yearly_data_of_12 l w Hlen). do 3 f_equal.
  apply existsb_exists. exists (PyInt z). split; [exact Hin | ].
  unfold nonneg_int. cbn. now apply Z.leb_le.
Qed.

Lemma verify_yearly_data_any_match_witness :
  Books.verify_yearly_data
    (PyList [PyInt (-4); PyStr "many"; PyNone; PyFloat (float_lit "2.5");
             PyInt (-1); PyNone; PyInt 0; PyStr ""; PyInt (-9); PyNone;
             PyFloat (float_lit "-1"); PyStr "x"])
    (mkWorld [] [])
  = (Ok (PyBool true), mkWorld [] []).
Proof.
  apply verify_yearly_data_any_match.
  - reflexivity.
  - exists 0. split; [simpl; do 6 right; left; reflexivity | lia].
Defined.

End MonthlyValidator.

(** ** The weekly validator *)

Section WeeklyValidator.

(** An element that is not a float fails the test, without a comparison
    being made. *)
Lemma hours_ok_not_float (a : atom) (w : world) :
  isinstance_float a = false -> Hours.hours_ok a w = (Ok false, w).
Proof.
  intros H. unfold Hours.hours_ok. now rewrite H.
Qed.

Lemma hours_loop_no_float (items : list atom) (w : world) :
  Forall (fun a => isinstance_float a = false) items ->
  for_each items
    (fun verification hours =>
       ok <- Hours.hours_ok hours;;
       ret (if ok then true else verification))
    false w
  = (Ok false, w).
Proof.
  induction 1 as [ | a items Ha _ IH].
  - reflexivity.
  - cbn [for_each]. unfold bind at 1. unfold bind at 1.
    rewrite (hours_ok_not_float a w Ha). unfold ret at 1. exact IH.
Qed.

(** C10.  The element test asks for a float: a list of seven ints, each
    strictly between 0 and 24, is rejected, [verify_weekly_data] returns
    [False] (and prints nothing), although every value is in range. *)
Theorem verify_weekly_data_rejects_ints (zs : list Z) (w : world) :
  List.length zs = 7%nat ->
  Forall (fun z => 0 < z < 24) zs ->
  Hours.verify_weekly_data (PyList (map PyInt zs)) w = (Ok (PyBool false), w).
Proof.
  intros Hlen _. unfold Hours.verify_weekly_data, try_except.
  unfold bind at 1. cbn [py_len lift]. rewrite length_map, Hlen.
  cbn [Z.of_nat Z.eqb Pos.of_succ_nat Pos.succ Pos.eqb].
  unfold bind at 1. cbn [py_iter lift]. unfold bind at 1.
  rewrite hours_loop_no_float; [reflexivity | ].
  apply Forall_forall. intros a Ha. apply in_map_iff in Ha.
  destruct Ha as [z [<- _]]. reflexivity.
Qed.

Lemma verify_weekly_data_rejects_ints_witness :
  Hours.verify_weekly_data
    (PyList [PyInt 1; PyInt 2; PyInt 3; PyInt 4; PyInt 5; PyInt 6; PyInt 7])
    (mkWorld [] [])
  = (Ok (PyBool false), mkWorld [] []).
Proof.
  apply (verify_weekly_data_rejects_ints [1; 2; 3; 4; 5; 6; 7] (mkWorld [] [])).
  - reflexivity.
  - repeat constructor; lia.
Defined.

(** C6.  On the list [[0.0, 1, 2, 3, 4, 5, 6]] the weekly validator
    returns [False].  The first element is a float, so it reaches the
    range test, and [0.0 < 0.0] fails there: the lower bound is
    exclusive.  Were it inclusive, this element alone would raise the
    flag. *)
Theorem verify_weekly_data_zero_excluded (w : world) :
  Hours.verify_weekly_data
    (PyList [PyFloat (float_lit "0.0"); PyInt 1; PyInt 2; PyInt 3;
             PyInt 4; PyInt 5; PyInt 6]) w
  = (Ok (PyBool false), w)
  /\ isinstance_float (PyFloat (float_lit "0.0")) = true
  /\ py_lt (PyFloat (float_lit "0.0")) (PyFloat (float_lit "0.0")) = Ok false
  /\ py_le (PyFloat (float_lit "0.0")) (PyFloat (float_lit "0.0")) = Ok true
  /\ py_lt (PyFloat (float_lit "0.0")) (PyFloat (float_lit "24.00")) = Ok true
  /\ Hours.hours_ok (PyFloat (float_lit "0.0")) w = (Ok false, w).
Proof.
  repeat split; reflexivity.
Qed.

(** The same seven numbers as the collector delivers them, all floats,
    are accepted: under the any-match loop one element in range is
    enough. *)
Lemma verify_weekly_data_collected_floats :
  Hours.get_weekly_data (mkWorld ["0.0 1 2 3 4 5 6"] [])
  = (Ok (PyList (map (fun s => PyFloat (float_lit s))
                     ["0.0"; "1"; "2"; "3"; "4"; "5"; "6"])),
     mkWorld [] [EPrompt "Enter hours read sequentially per day for a week (between 0.0 and 24.0): "])
  /\ forall w,
       Hours.verify_weekly_data
         (PyList (map (fun s => PyFloat (float_lit s))
                      ["0.0"; "1"; "2"; "3"; "4"; "5"; "6"])) w
       = (Ok (PyBool true), w).
Proof.
  split; [ | intros w]; reflexivity.
Qed.

End WeeklyValidator.

(** ** The tick-interval selectors *)

Section TickIntervals.

Lemma above_bound (q : Q) (a b : Z) :
  a <= b -> (inject_Z b < q)%Q -> (inject_Z a < q)%Q.
Proof.
  intros Hab Hb. apply Qle_lt_trans with (inject_Z b); [ | exact Hb].
  now rewrite <- Zle_Qle.
Qed.

(** One comparison of the ladder, decided from the value of the number. *)
Ltac rung Hval :=
  unfold bind at 1; unfold lift at 1;
  first
    [ rewrite (py_le_true _ _ _ Hval) by assumption
    | rewrite (py_le_false _ _ _ Hval)
        by (assumption || (eapply above_bound; [ | eassumption]; lia)) ].

Ltac ladder Hval :=
  unfold try_except; repeat rung Hval; reflexivity.

(** The double that the literal [10.0001] denotes lies just above 10. *)
Lemma literal_10_0001 :
  float_of_str "10.0001" = Ok (S754_finite false 5629555829208462 (-49))
  /\ float_val (float_lit "10.0001") = XFin (5629555829208462 # 562949953421312)
  /\ (10 < 5629555829208462 # 562949953421312)%Q
  /\ (Qabs ((5629555829208462 # 562949953421312) - (100001 # 10000))
      <= 1 # 1125899906842624)%Q.
Proof.
  repeat split; vm_compute; congruence.
Qed.

(** C3.  The monthly selector on a number of value [q >= 0], int or
    float: 1 up to 10, 5 up to 50, 10 up to 100, 50 up to 500, and 100
    beyond; it prints nothing.  At 10 the interval is 1, and at the
    double written [10.0001] it is 5. *)
Theorem monthly_tick_interval (m : atom) (q : Q) (w : world) :
  num_val m = Some (XFin q) ->
  (0 <= q)%Q ->
  ((q <= 10)%Q -> Books.calculate_ytick_interval m w = (Ok (PyInt 1), w))
  /\ ((10 < q)%Q -> (q <= 50)%Q ->
      Books.calculate_ytick_interval m w = (Ok (PyInt 5), w))
  /\ ((50 < q)%Q -> (q <= 100)%Q ->
      Books.calculate_ytick_interval m w = (Ok (PyInt 10), w))
  /\ ((100 < q)%Q -> (q <= 500)%Q ->
      Books.calculate_ytick_interval m w = (Ok (PyInt 50), w))
  /\ ((500 < q)%Q -> Books.calculate_ytick_interval m w = (Ok (PyInt 100), w))
  /\ Books.calculate_ytick_interval (PyInt 10) w = (Ok (PyInt 1), w)
  /\ Books.calculate_ytick_interval (PyFloat (float_lit "10.0001")) w
     = (Ok (PyInt 5), w).
Proof.
  intros Hval _. unfold Books.calculate_ytick_interval.
  change 10%Q with (inject_Z 10). change 50%Q with (inject_Z 50).
  change 100%Q with (inject_Z 100). change 500%Q with (inject_Z 500).
  repeat split; intros; try (ladder Hval); reflexivity.
Qed.

Lemma monthly_tick_interval_witness :
  Books.calculate_ytick_interval (PyInt 12) (mkWorld [] [])
  = (Ok (PyInt 5), mkWorld [] []).
Proof.
  refine (proj1 (proj2
    (monthly_tick_interval (PyInt 12) (inject_Z 12) (mkWorld [] []) eq_refl _)) _ _);
    vm_compute; congruence.
Defined.

(** Beyond every threshold: positive infinity gets the last interval. *)
Lemma posinf_monthly_interval (m : atom) (w : world) :
  num_val m = Some (XInf false) ->
  Books.calculate_ytick_interval m w = (Ok (PyInt 100), w).
Proof.
  intros Hval. unfold Books.calculate_ytick_interval, try_except.
  repeat (unfold bind at 1; unfold lift at 1; rewrite (py_le_posinf _ _ Hval)).
  reflexivity.
Qed.

(** C4.  The weekly selector on a number of value [q >= 0], int or
    float: 1 up to 5, 2 up to 10, 3 up to 15, 4 up to 20, 5 up to 24, and
    8 beyond; it prints nothing.  At 24 the interval is 5, at 25 it is 8. *)
Theorem weekly_tick_interval (m : atom) (q : Q) (w : world) :
  num_val m = Some (XFin q) ->
  (0 <= q)%Q ->
  ((q <= 5)%Q -> Hours.calculate_ytick_interval m w = (Ok (PyInt 1), w))
  /\ ((5 < q)%Q -> (q <= 10)%Q ->
      Hours.calculate_ytick_interval m w = (Ok (PyInt 2), w))
  /\ ((10 < q)%Q -> (q <= 15)%Q ->
      Hours.calculate_ytick_interval m w = (Ok (PyInt 3), w))
  /\ ((15 < q)%Q -> (q <= 20)%Q ->
      Hours.calculate_ytick_interval m w = (Ok (PyInt 4), w))
  /\ ((20 < q)%Q -> (q <= 24)%Q ->
      Hours.calculate_ytick_interval m w = (Ok (PyInt 5), w))
  /\ ((24 < q)%Q -> Hours.calculate_ytick_interval m w = (Ok (PyInt 8), w))
  /\ Hours.calculate_ytick_interval (PyInt 24) w = (Ok (PyInt 5), w)
  /\ Hours.calculate_ytick_interval (PyInt 25) w = (Ok (PyInt 8), w)
  /\ Hours.calculate_ytick_interval (PyFloat (float_lit "24.0")) w = (Ok (PyInt 5), w)
  /\ Hours.calculate_ytick_interval (PyFloat (float_lit "25.0")) w = (Ok (PyInt 8), w).
Proof.
  intros Hval _. unfold Hours.calculate_ytick_interval.
  change 5%Q with (inject_Z 5). change 10%Q with (inject_Z 10).
  change 15%Q with (inject_Z 15). change 20%Q with (inject_Z 20).
  change 24%Q with (inject_Z 24).
  repeat split; intros; try (ladder Hval); reflexivity.
Qed.

Lemma weekly_tick_interval_witness :
  Hours.calculate_ytick_interval (PyFloat (float_lit "7.5")) (mkWorld [] [])
  = (Ok (PyInt 2), mkWorld [] []).
Proof.
  refine (proj1 (proj2
    (weekly_tick_interval (PyFloat (float_lit "7.5"))
       (8444249301319680 # 1125899906842624) (mkWorld [] []) _ _)) _ _);
    vm_compute; congruence.
Defined.

End TickIntervals.

(** ** The text prompt of the image script *)

Section SelectedText.

Lemma length_guard_false (sel_text : string) :
  Dalle.length_guard sel_text = false.
Proof.
  unfold Dalle.length_guard.
  destruct (0 >=? Z.of_nat (String.length sel_text)) eqn:Hle; [ | reflexivity].
  destruct (Z.of_nat (String.length sel_text) >? 600) eqn:Hgt; [ | reflexivity].
  rewrite Z.geb_le in Hle. rewrite Z.gtb_lt in Hgt. lia.
Qed.

(** C8.  The guard [0 >= len(sel_text) > 600] is false of every string,
    so the reprompt branch is never taken: whatever line is entered, the
    empty one and those of more than 600 characters included,
    [get_selected_text] returns it as it is, having written the prompt
    once, printed nothing and read no second line.  With no line left to
    read it reports the end of input; the reprompt is printed in neither
    case. *)
Theorem get_selected_text_returns_any_input
    (depth : nat) (line : string) (rest : list string) (tr : list event) :
  (forall sel_text, Dalle.length_guard sel_text = false)
  /\ Dalle.get_selected_text (S depth) (mkWorld (line :: rest) tr)
     = (Ok (PyStr line),
        mkWorld rest
          (tr ++ [EPrompt Dalle.selected_text_prompt]))
  /\ Dalle.get_selected_text (S depth) (mkWorld ("" :: rest) tr)
     = (Ok (PyStr ""),
        mkWorld rest
          (tr ++ [EPrompt Dalle.selected_text_prompt]))
  /\ Dalle.get_selected_text (S depth) (mkWorld [] tr)
     = (Ok PyNone,
        mkWorld []
          ((tr ++ [EPrompt Dalle.selected_text_prompt])
           ++ [EPrint [Scalar (PyStr "Error encountered: ");
                       Scalar (PyExc (Builtin EOFError))]])).
Proof.
  split; [exact length_guard_false | ].
  assert (run : forall l,
    Dalle.get_selected_text (S depth) (mkWorld (l :: rest) tr)
    = (Ok (PyStr l),
       mkWorld rest
         (tr ++ [EPrompt Dalle.selected_text_prompt]))).
  { intros l. cbn [Dalle.get_selected_text]. unfold try_except, bind at 1.
    cbn [input stdin trace]. now rewrite length_guard_false. }
  repeat split; try apply run.
Qed.

End SelectedText.

(** ** The monthly collector *)

Section MonthlyCollector.

Lemma collect_loop (tokens : list string) (acc : list atom) (w : world) :
  for_each tokens
    (fun yearly_data token =>
       books <- lift (float_of_str token);;
       n <- lift (int_of_float books);;
       ret (yearly_data ++ [PyInt (Z.abs n)]))
    acc w
  = match coerce_all tokens with
    | Ok l => (Ok (acc ++ l), w)
    | Raise e => (Raise e, w)
    end.
Proof.
  revert acc. induction tokens as [ | token tokens IH]; intros acc.
  - cbn. now rewrite app_nil_r.
  - cbn [for_each coerce_all]. unfold coerce, bind at 1, bind at 1, lift at 1.
    destruct (float_of_str token) as [books | e]; [ | reflexivity].
    cbn [rbind]. unfold bind at 1, lift at 1.
    destruct (int_of_float books) as [n | e]; [ | reflexivity].
    cbn [rbind]. unfold ret at 1. rewrite IH.
    destruct (coerce_all tokens) as [l | e]; [ | reflexivity].
    cbn [rbind]. now rewrite <- app_assoc.
Qed.

(** The collector never raises: it returns the coerced list, or prints
    the error and returns [None]. *)
Lemma get_yearly_data_run (w : world) :
  Books.get_yearly_data w
  = match stdin w with
    | [] =>
        (Ok (Scalar PyNone),
         mkWorld []
           (trace w ++ [EPrompt books_prompt]
                    ++ [EPrint [Scalar (PyStr "Error in accepting yearly data: ");
                                Scalar (PyExc (Builtin EOFError))]]))
    | line :: rest =>
        match coerce_all (py_split line) with
        | Ok l => (Ok (PyList l), mkWorld rest (trace w ++ [EPrompt books_prompt]))
        | Raise e =>
            (Ok (Scalar PyNone),
             mkWorld rest
               (trace w ++ [EPrompt books_prompt]
                        ++ [EPrint [Scalar (PyStr "Error in accepting yearly data: ");
                                    Scalar (PyExc e)]]))
        end
    end.
Proof.
  unfold Books.get_yearly_data, try_except, bind at 1, input.
  destruct (stdin w) as [ | line rest].
  - cbn. now rewrite <- app_assoc.
  - unfold bind at 1. rewrite collect_loop.
    destruct (coerce_all (py_split line)) as [l | e].
    + reflexivity.
    + cbn. now rewrite <- app_assoc.
Qed.

Lemma coerce_all_spec (tokens : list string) (l : list atom) :
  coerce_all tokens = Ok l ->
  Forall2 (fun token a =>
             exists books n,
               float_of_str token = Ok books /\ int_of_float books = Ok n
               /\ a = PyInt (Z.abs n))
          tokens l.
Proof.
  revert l. induction tokens as [ | token tokens IH]; intros l H.
  - cbn in H. inversion H. constructor.
  - cbn [coerce_all] in H. unfold coerce in H.
    destruct (float_of_str token) as [books | e] eqn:Hf; [ | discriminate].
    cbn [rbind] in H.
    destruct (int_of_float books) as [n | e] eqn:Hn; [ | discriminate].
    cbn [rbind] in H.
    destruct (coerce_all tokens) as [l' | e]; [ | discriminate].
    cbn [rbind] in H. inversion H. subst l.
    constructor; [ | now apply IH].
    exists books, n. now rewrite Hf.
Qed.

(** C9.  When [get_yearly_data] returns a list, the list is the tokens
    of the line read, each coerced by [abs(int(float(token)))]; so every
    element is an int, is non-negative, and passes the element test of
    the validator.  A negative number is not rejected: it comes out as
    its absolute value, and nothing is printed. *)
Theorem get_yearly_data_nonnegative (w w' : world) (l : list atom) :
  Books.get_yearly_data w = (Ok (PyList l), w') ->
  Forall (fun a => exists z, a = PyInt z /\ 0 <= z) l
  /\ Forall (fun a => forall w1, Books.books_ok a w1 = (Ok true, w1)) l
  /\ (exists line,
        stdin w = line :: stdin w'
        /\ trace w' = trace w ++ [EPrompt books_prompt]
        /\ Forall2 (fun token a =>
                      exists books n,
                        float_of_str token = Ok books
                        /\ int_of_float books = Ok n
                        /\ a = PyInt (Z.abs n))
                   (py_split line) l)
  /\ Books.get_yearly_data (mkWorld ["-3 7 -2.9 -0"] [])
     = (Ok (PyList [PyInt 3; PyInt 7; PyInt 2; PyInt 0]),
        mkWorld [] [EPrompt books_prompt]).
Proof.
  intros Hrun. rewrite get_yearly_data_run in Hrun.
  destruct (stdin w) as [ | line rest] eqn:Hin; [discriminate | ].
  destruct (coerce_all (py_split line)) as [l0 | e] eqn:Hc; [ | discriminate].
  inversion Hrun; subst l0 w'; clear Hrun.
  pose proof (coerce_all_spec _ _ Hc) as Hall.
  assert (Hnn : Forall (fun a => exists z, a = PyInt z /\ 0 <= z) l).
  { clear Hc. induction Hall as [ | token a tokens l' [books [n [_ [_ ->]]]] _ IH].
    - constructor.
    - constructor; [ | exact IH]. exists (Z.abs n). split; [reflexivity | lia]. }
  repeat split.
  - exact Hnn.
  - apply Forall_forall. intros a Ha w1.
    rewrite Forall_forall in Hnn. destruct (Hnn a Ha) as [z [-> Hz]].
    rewrite books_ok_run. unfold nonneg_int. cbn.
    apply Z.leb_le in Hz. now rewrite Hz.
  - exists line. cbn [stdin trace]. repeat split. exact Hall.
Qed.

Lemma get_yearly_data_nonnegative_witness :
  Forall (fun a => exists z, a = PyInt z /\ 0 <= z) [PyInt 5; PyInt 1; PyInt 12].
Proof.
  refine (proj1
    (get_yearly_data_nonnegative
       (mkWorld ["-5 1.9 12"] []) (mkWorld [] [EPrompt books_prompt])
       [PyInt 5; PyInt 1; PyInt 12] _)).
  vm_compute. reflexivity.
Defined.

End MonthlyCollector.

(** ** The monthly run, end to end *)

Section MonthlyRun.

Lemma py_le_int (x y : Z) : py_le (PyInt x) (PyInt y) = Ok (x <=? y).
Proof.
  unfold py_le. rewrite (py_compare_int (PyInt x) (PyInt y) x y eq_refl eq_refl).
  cbn. unfold Z.leb. now destruct (x ?= y).
Qed.

Lemma best_from_ints (cur : Z) (l : list Z) :
  best_from py_gt (PyInt cur) (map PyInt l) = Ok (PyInt (fold_left Z.max l cur)).
Proof.
  revert cur. induction l as [ | x l IH]; intros cur; [reflexivity | ].
  cbn [map best_from fold_left]. rewrite py_gt_int. cbn [rbind].
  destruct (cur <? x) eqn:E.
  - rewrite IH. apply Z.ltb_lt in E. now rewrite Z.max_r by lia.
  - rewrite IH. apply Z.ltb_ge in E. now rewrite Z.max_l by lia.
Qed.

Lemma max_of_ints (books : list Z) (w : world) :
  books <> [] ->
  max_of (PyList (map PyInt books)) w = (Ok (PyInt (maximum books)), w).
Proof.
  intros Hne. destruct books as [ | first rest]; [congruence | ].
  unfold max_of, bind, lift. cbn [py_iter map py_max maximum].
  now rewrite best_from_ints.
Qed.

(** [maximum] is the maximum: an element, above all the others. *)
Lemma fold_max_spec (l : list Z) (cur : Z) :
  (fold_left Z.max l cur = cur \/ In (fold_left Z.max l cur) l)
  /\ cur <= fold_left Z.max l cur
  /\ Forall (fun x => x <= fold_left Z.max l cur) l.
Proof.
  revert cur. induction l as [ | x l IH]; intros cur.
  - cbn. repeat split; [now left | lia | constructor].
  - cbn [fold_left]. destruct (IH (Z.max cur x)) as [Hin [Hle Hall]].
    repeat split.
    + destruct Hin as [Heq | Hin]; [ | right; now right].
      rewrite Heq. destruct (Z.max_spec cur x) as [[_ ->] | [_ ->]];
        [right; now left | now left].
    + lia.
    + constructor; [lia | exact Hall].
Qed.

Lemma maximum_spec (books : list Z) :
  books <> [] ->
  In (maximum books) books /\ Forall (fun x => x <= maximum books) books.
Proof.
  intros Hne. destruct books as [ | first rest]; [congruence | ].
  cbn [maximum]. destruct (fold_max_spec rest first) as [Hin [Hle Hall]].
  split.
  - destruct Hin as [-> | Hin]; [now left | now right].
  - constructor; assumption.
Qed.

(** On an int the selector is the scale of the specification. *)
Lemma calculate_ytick_interval_int (m : Z) (w : world) :
  Books.calculate_ytick_interval (PyInt m) w = (Ok (PyInt (monthly_scale m)), w).
Proof.
  unfold Books.calculate_ytick_interval, monthly_scale, try_except.
  repeat (unfold bind at 1; unfold lift at 1; rewrite py_le_int;
          match goal with |- context [?x <=? ?y] => destruct (x <=? y) end;
          [reflexivity | ]).
  reflexivity.
Qed.

Lemma monthly_scale_pos (m : Z) : 0 < monthly_scale m.
Proof.
  unfold monthly_scale.
  repeat match goal with |- context [?x <=? ?y] => destruct (x <=? y) end; lia.
Qed.

Lemma axis_upper_bounds_app (tr1 tr2 : list event) :
  axis_upper_bounds (tr1 ++ tr2) = axis_upper_bounds tr1 ++ axis_upper_bounds tr2.
Proof.
  induction tr1 as [ | ev tr1 IH]; [reflexivity | ].
  destruct ev as [s | args | fn args]; cbn [app axis_upper_bounds]; try exact IH.
  now rewrite IH, app_assoc.
Qed.

Lemma months_min (w : world) : min_of months w = (Ok (PyInt 1), w).
Proof. reflexivity. Qed.

Lemma months_max (w : world) : max_of months w = (Ok (PyInt 12), w).
Proof. reflexivity. Qed.

(** What [smooth_data] asks of the libraries on the monthly axis: a cubic
    interpolant of the raw points, sampled on a grid of [num_points]
    values from [min(x_axis) = 1] to [max(x_axis) = 12]. *)
Lemma smooth_data_requests (y_axis : value) (num_points : Z) (w : world) :
  Books.smooth_data months y_axis num_points w
  = (Ok (PyLib "x_smooth", PyLib "y_smooth"),
     mkWorld (stdin w)
       (trace w
        ++ [ECall "interp1d" [months; y_axis; Scalar (PyStr "cubic")];
            ECall "np.linspace"
              [Scalar (PyInt 1); Scalar (PyInt 12); Scalar (PyInt num_points)];
            ECall "interpolated_fn" [Scalar (PyLib "x_smooth")]])).
Proof.
  unfold Books.smooth_data.
  unfold bind at 1; cbn [call emit stdin trace].
  unfold bind at 1. rewrite months_min.
  unfold bind at 1. rewrite months_max.
  do 2 (unfold bind at 1; cbn [call emit stdin trace]).
  unfold ret. now rewrite <- !app_assoc.
Qed.

(** The renderer on twelve ints: it runs to the end without an error,
    and both upper bounds it sets on the y axis are the maximum of the
    data plus the tick interval of that maximum. *)
Lemma plot_books_per_month_bounds (books : list Z) (w : world) :
  List.length books = 12%nat ->
  exists tr,
    Books.plot_books_per_month (PyList (map PyInt books)) w
    = (Ok PyNone, mkWorld (stdin w) (trace w ++ tr))
    /\ axis_upper_bounds tr
       = [PyInt (maximum books + monthly_scale (maximum books));
          PyInt (maximum books + monthly_scale (maximum books))].
Proof.
  intros Hlen.
  assert (Hne : books <> []) by (destruct books; [discriminate | congruence]).
  set (M := maximum books). set (t := monthly_scale M).
  assert (Ht : (t =? 0) = false).
  { apply Z.eqb_neq. pose proof (monthly_scale_pos M). subst t. lia. }
  unfold Books.plot_books_per_month, try_except. fold months.
  unfold bind at 1. cbn [py_len lift]. rewrite length_map, Hlen.
  cbn [Z.of_nat Z.eqb Pos.of_succ_nat Pos.succ Pos.eqb negb].
  do 4 (unfold bind at 1; cbn [call emit stdin trace]).
  unfold bind at 1. rewrite (max_of_ints books _ Hne). fold M.
  unfold bind at 1. rewrite calculate_ytick_interval_int. fold t.
  unfold bind at 1. rewrite (max_of_ints books _ Hne). fold M.
  unfold bind at 1. cbn [lift py_add int_val].
  unfold bind at 1; cbn [call emit stdin trace].
  unfold bind at 1. rewrite smooth_data_requests. cbn [fst snd stdin trace].
  do 3 (unfold bind at 1; cbn [call emit stdin trace]).
  unfold bind at 1. rewrite (max_of_ints books _ Hne). fold M.
  unfold bind at 1. cbn [lift py_add int_val].
  unfold bind at 1; cbn [call emit stdin trace].
  unfold bind at 1. cbn [lift py_range int_val Z.eqb].
  do 5 (unfold bind at 1; cbn [call emit stdin trace]).
  do 2 (unfold bind at 1; rewrite (max_of_ints books _ Hne); fold M;
        unfold bind at 1; cbn [lift py_add int_val];
        unfold bind at 1; cbn [lift py_range int_val]; rewrite ?Ht;
        unfold bind at 1; cbn [call emit stdin trace]).
  do 5 (unfold bind at 1; cbn [call emit stdin trace]).
  unfold ret. repeat rewrite <- app_assoc.
  eexists. split; reflexivity.
Qed.

(** C1, as the specification words it, fails: on the line
    ["1 2 3 4 5 6 7 8 9 10 11 12"] the renderer is not given 13 as an
    upper bound of the y axis, because the tick interval of 12 is 5. *)
Lemma monthly_run_bound_13_refuted :
  ~ (fst (Books.get_yearly_data (mkWorld [twelve_months_line] []))
       = Ok (PyList one_to_twelve)
     /\ (forall w, Books.verify_yearly_data (PyList one_to_twelve) w
                   = (Ok (PyBool true), w))
     /\ In (PyInt 13)
           (axis_upper_bounds
              (trace (snd (Books.main (mkWorld [twelve_months_line] [])))))).
Proof.
  intros [_ [_ H]]. vm_compute in H.
  destruct H as [H | [H | []]]; discriminate H.
Qed.

(** C1, amended.  On twelve ints the renderer is given, as upper bound
    of the y axis, the maximum of the data plus the tick interval of that
    maximum.  On the line ["1 2 3 4 5 6 7 8 9 10 11 12"] the collector
    returns [[1, ..., 12]], the validator returns [True], and the
    renderer is given 12 + 5 = 17, the tick interval of 12 being 5. *)
Theorem monthly_run_end_to_end (books : list Z) (w : world) :
  List.length books = 12%nat ->
  (In (maximum books) books /\ Forall (fun x => x <= maximum books) books)
  /\ Books.calculate_ytick_interval (PyInt (maximum books)) w
     = (Ok (PyInt (monthly_scale (maximum books))), w)
  /\ (exists tr,
        Books.plot_books_per_month (PyList (map PyInt books)) w
        = (Ok PyNone, mkWorld (stdin w) (trace w ++ tr))
        /\ axis_upper_bounds tr
           = [PyInt (maximum books + monthly_scale (maximum books));
              PyInt (maximum books + monthly_scale (maximum books))])
  /\ Books.get_yearly_data (mkWorld [twelve_months_line] [])
     = (Ok (PyList one_to_twelve), mkWorld [] [EPrompt books_prompt])
  /\ Books.verify_yearly_data (PyList one_to_twelve) w = (Ok (PyBool true), w)
  /\ Books.calculate_ytick_interval (PyInt 12) w = (Ok (PyInt 5), w)
  /\ fst (Books.main (mkWorld [twelve_months_line] [])) = Ok PyNone
  /\ axis_upper_bounds (trace (snd (Books.main (mkWorld [twelve_months_line] []))))
     = [PyInt 17; PyInt 17].
Proof.
  intros Hlen.
  assert (Hne : books <> []) by (destruct books; [discriminate | congruence]).
  split; [exact (maximum_spec books Hne) | ].
  split; [apply calculate_ytick_interval_int | ].
  split; [exact (plot_books_per_month_bounds books w Hlen) | ].
  repeat split; reflexivity.
Qed.

Lemma monthly_run_end_to_end_witness :
  exists tr,
    Books.plot_books_per_month (PyList one_to_twelve) (mkWorld [] [])
    = (Ok PyNone, mkWorld [] tr)
    /\ axis_upper_bounds tr = [PyInt 17; PyInt 17].
Proof.
  exact (proj1 (proj2 (proj2
    (monthly_run_end_to_end [1; 2; 3; 4; 5; 6; 7; 8; 9; 10; 11; 12]
       (mkWorld [] []) eq_refl)))).
Defined.

End MonthlyRun.

(** ** Further properties of the monthly script *)

Section MonthlyScript.

Lemma verify_yearly_data_other_length (l : list atom) (w : world) :
  List.length l <> 12%nat ->
  Books.verify_yearly_data (PyList l) w
  = (Ok (PyBool false),
     mkWorld (stdin w) (trace w ++ [EPrint [Scalar (PyStr books_shape_message)]])).
Proof.
  intros Hlen. unfold Books.verify_yearly_data, try_except.
  unfold bind at 1. cbn [py_len lift].
  destruct (Z.of_nat (List.length l) =? 12) eqn:E; [ | reflexivity].
  apply Z.eqb_eq in E. lia.
Qed.




(** X2.  A list of 12 elements none of which is a non-negative int is
    rejected without a word: the validator returns [False] and prints
    nothing, the shape message being kept for a wrong length. *)
Theorem verify_yearly_data_silent_rejection (l : list atom) (w : world) :
  List.length l = 12%nat ->
  Forall (fun a => nonneg_int a = false) l ->
  Books.verify_yearly_data (PyList l) w = (Ok (PyBool false), w).
Proof.
  intros Hlen Hall. rewrite (verify_yearly_data_of_12 l w Hlen). do 3 f_equal.
  destruct (existsb nonneg_int l) eqn:E; [ | reflexivity].
  apply existsb_exists in E. destruct E as [a [Hin Ha]].
  rewrite Forall_forall in Hall. rewrite (Hall a Hin) in Ha. discriminate.
Qed.

Lemma verify_yearly_data_silent_rejection_witness :
  Books.verify_yearly_data
    (PyList [PyInt (-1); PyInt (-2); PyInt (-3); PyInt (-4); PyInt (-5);
             PyInt (-6); PyFloat (float_lit "7.0"); PyStr "8"; PyNone;
             PyInt (-10); PyInt (-11); PyInt (-12)])
    (mkWorld [] [])
  = (Ok (PyBool false), mkWorld [] []).
Proof.
  apply verify_yearly_data_silent_rejection.
  - reflexivity.
  - repeat constructor.
Defined.

(** X3.  Given a list of any other length than 12, the monthly renderer
    calls no library at all: it prints the [ValueError] it raised for
    itself and returns [None]. *)
Theorem plot_books_per_month_wrong_length (l : list atom) (w : world) :
  List.length l <> 12%nat ->
  Books.plot_books_per_month (PyList l) w
  = (Ok PyNone,
     mkWorld (stdin w)
       (trace w
        ++ [EPrint [Scalar (PyExc (Raised ValueError
                      "The length of books_read lists must be 12."))]])).
Proof.
  intros Hlen. unfold Books.plot_books_per_month, try_except.
  unfold bind at 1. cbn [py_len lift].
  destruct (Z.of_nat (List.length l) =? 12) eqn:E.
  - apply Z.eqb_eq in E. lia.
  - reflexivity.
Qed.

Lemma plot_books_per_month_wrong_length_witness :
  calls (trace (snd (Books.plot_books_per_month
                       (PyList [PyInt 3; PyInt 1; PyInt 4]) (mkWorld [] []))))
  = [].
Proof.
  rewrite (plot_books_per_month_wrong_length [PyInt 3; PyInt 1; PyInt 4] (mkWorld [] [])).
  - reflexivity.
  - simpl. lia.
Defined.



Lemma split_blank (cs : list ascii) :
  Forall (fun c => is_space c = true) cs -> split_from [] cs = [].
Proof.
  induction 1 as [ | c cs Hc _ IH]; [reflexivity | ].
  cbn [split_from]. now rewrite Hc.
Qed.



(** X5.  A line with no token on it, empty or all white space, is not an
    error for the collector: it returns the empty list and prints
    nothing. *)
Theorem get_yearly_data_blank_line
    (line : string) (rest : list string) (tr : list event) :
  Forall (fun c => is_space c = true) (list_ascii_of_string line) ->
  Books.get_yearly_data (mkWorld (line :: rest) tr)
  = (Ok (PyList []), mkWorld rest (tr ++ [EPrompt books_prompt])).
Proof.
  intros Hblank. rewrite get_yearly_data_run. cbn [stdin trace].
  unfold py_split. now rewrite (split_blank _ Hblank).
Qed.

Lemma get_yearly_data_blank_line_witness :
  Books.get_yearly_data (mkWorld ["   "] [])
  = (Ok (PyList []), mkWorld [] [EPrompt books_prompt]).
Proof.
  apply (get_yearly_data_blank_line "   " [] []).
  repeat constructor.
Defined.

(** The renderer on twelve ints, event for event. *)
Lemma plot_books_per_month_trace (books : list Z) (w : world) :
  List.length books = 12%nat ->
  Books.plot_books_per_month (PyList (map PyInt books)) w
  = (Ok PyNone,
     mkWorld (stdin w)
       (trace w
        ++ books_plot_trace (PyList (map PyInt books))
             (PyInt (maximum books + monthly_scale (maximum books)))
             (map PyInt
                (range_list 0 (maximum books + monthly_scale (maximum books))
                   (monthly_scale (maximum books)))))).
Proof.
  intros Hlen.
  assert (Hne : books <> []) by (destruct books; [discriminate | congruence]).
  set (M := maximum books). set (t := monthly_scale M).
  assert (Ht : (t =? 0) = false).
  { apply Z.eqb_neq. pose proof (monthly_scale_pos M). subst t. lia. }
  unfold Books.plot_books_per_month, try_except. fold months.
  unfold bind at 1. cbn [py_len lift]. rewrite length_map, Hlen.
  cbn [Z.of_nat Z.eqb Pos.of_succ_nat Pos.succ Pos.eqb negb].
  do 4 (unfold bind at 1; cbn [call emit stdin trace]).
  unfold bind at 1. rewrite (max_of_ints books _ Hne). fold M.
  unfold bind at 1. rewrite calculate_ytick_interval_int. fold t.
  unfold bind at 1. rewrite (max_of_ints books _ Hne). fold M.
  unfold bind at 1. cbn [lift py_add int_val].
  unfold bind at 1; cbn [call emit stdin trace].
  unfold bind at 1. rewrite smooth_data_requests. cbn [fst snd stdin trace].
  do 3 (unfold bind at 1; cbn [call emit stdin trace]).
  unfold bind at 1. rewrite (max_of_ints books _ Hne). fold M.
  unfold bind at 1. cbn [lift py_add int_val].
  unfold bind at 1; cbn [call emit stdin trace].
  unfold bind at 1. cbn [lift py_range int_val Z.eqb].
  do 5 (unfold bind at 1; cbn [call emit stdin trace]).
  do 2 (unfold bind at 1; rewrite (max_of_ints books _ Hne); fold M;
        unfold bind at 1; cbn [lift py_add int_val];
        unfold bind at 1; cbn [lift py_range int_val]; rewrite ?Ht;
        unfold bind at 1; cbn [call emit stdin trace]).
  do 5 (unfold bind at 1; cbn [call emit stdin trace]).
  unfold ret. repeat rewrite <- app_assoc. reflexivity.
Qed.




(** X7.  End to end, the wrong count.  When every token converts but
    there are not 12 of them, [main] prints the shape message, once, and
    draws nothing. *)
Theorem books_main_wrong_count
    (line : string) (rest : list string) (tr : list event) (l : list atom) :
  coerce_all (py_split line) = Ok l ->
  List.length l <> 12%nat ->
  Books.main (mkWorld (line :: rest) tr)
  = (Ok PyNone,
     mkWorld rest
       (tr ++ [EPrompt books_prompt;
               EPrint [Scalar (PyStr books_shape_message)]])).
Proof.
  intros Hc Hlen. unfold Books.main, try_except. unfold bind at 1.
  rewrite get_yearly_data_run. cbn [stdin trace]. rewrite Hc.
  unfold bind at 1. rewrite (verify_yearly_data_other_length _ _ Hlen).
  cbn [stdin trace]. unfold ret. now rewrite <- app_assoc.
Qed.

Lemma books_main_wrong_count_witness :
  Books.main (mkWorld ["1 2 3"] [])
  = (Ok PyNone,
     mkWorld []
       [EPrompt books_prompt; EPrint [Scalar (PyStr books_shape_message)]]).
Proof.
  apply (books_main_wrong_count "1 2 3" [] [] [PyInt 1; PyInt 2; PyInt 3]).
  - reflexivity.
  - simpl. lia.
Defined.



End MonthlyScript.

(** ** Ticks and scales *)

Section Scales.

(** [range(a, b, c)] with a positive step holds the numbers from [a] on,
    below [b], that are a multiple of [c] away from [a]. *)
Lemma in_range_list (a b c x : Z) :
  0 < c ->
  In x (range_list a b c) <-> (a <= x < b /\ (c | x - a)).
Proof.
  intros Hc. unfold range_list.
  assert (E : (0 <? c) = true) by now apply Z.ltb_lt.
  rewrite E. clear E. set (n := (b - a + c - 1) / c).
  assert (Hn : n * c <= b - a + c - 1 < n * c + c).
  { pose proof (Z.div_mod (b - a + c - 1) c ltac:(lia)) as Hdm.
    pose proof (Z.mod_pos_bound (b - a + c - 1) c Hc). fold n in Hdm. nia. }
  rewrite in_map_iff. split.
  - intros [i [<- Hi]]. apply in_seq in Hi.
    assert (Hlt : Z.of_nat i < n) by lia.
    split; [nia | ]. exists (Z.of_nat i). lia.
  - intros [[Hlo Hhi] [k Hk]].
    assert (Hk0 : 0 <= k) by nia.
    assert (Hkn : k < n) by nia.
    exists (Z.to_nat k). split; [rewrite Z2Nat.id by lia; lia | ].
    apply in_seq. lia.
Qed.

Lemma range_list_length (a b c : Z) :
  0 < c -> Z.of_nat (List.length (range_list a b c)) = Z.max 0 ((b - a + c - 1) / c).
Proof.
  intros Hc. unfold range_list.
  assert (E : (0 <? c) = true) by now apply Z.ltb_lt.
  rewrite E, length_map, length_seq. lia.
Qed.

Lemma maximum_nonneg (zs : list Z) :
  zs <> [] -> Forall (fun z => 0 <= z) zs -> 0 <= maximum zs.
Proof.
  intros Hne Hnn. destruct (maximum_spec zs Hne) as [Hin _].
  rewrite Forall_forall in Hnn. now apply Hnn.
Qed.

(** X9.  The ticks of the monthly chart cover the data.  For twelve
    non-negative ints of maximum [M] and tick interval [t], the renderer
    sets as y ticks exactly the multiples of [t] from 0 up to, and
    excluding, the top [M + t] of the axis; one of them is at or above
    [M]; and there are at most 11 of them as long as [M <= 500]. *)
Theorem monthly_ticks_cover (books : list Z) (w : world) :
  List.length books = 12%nat ->
  Forall (fun z => 0 <= z) books ->
  exists ticks,
    In (ECall "ax.set_yticks" [PyList (map PyInt ticks)])
       (trace (snd (Books.plot_books_per_month (PyList (map PyInt books)) w)))
    /\ (forall x, In x ticks <->
                  0 <= x < maximum books + monthly_scale (maximum books)
                  /\ (monthly_scale (maximum books) | x))
    /\ In 0 ticks
    /\ (exists x, In x ticks /\ maximum books <= x)
    /\ (maximum books <= 500 -> (List.length ticks <= 11)%nat).
Proof.
  intros Hlen Hnn.
  assert (Hne : books <> []) by (destruct books; [discriminate | congruence]).
  pose proof (maximum_nonneg books Hne Hnn) as HM.
  set (M := maximum books) in *. set (t := monthly_scale M).
  pose proof (monthly_scale_pos M) as Ht. fold t in Ht.
  exists (range_list 0 (M + t) t).
  assert (Hmem : forall x, In x (range_list 0 (M + t) t) <->
                           0 <= x < M + t /\ (t | x)).
  { intros x. rewrite (in_range_list 0 (M + t) t x Ht). now rewrite Z.sub_0_r. }
  split; [ | split; [exact Hmem | split; [ | split]]].
  - rewrite (plot_books_per_month_trace books w Hlen). cbn [snd trace].
    apply in_or_app. right. unfold books_plot_trace. fold M t.
    do 17 right. left. reflexivity.
  - apply Hmem. split; [lia | apply Z.divide_0_r].
  - exists (t * ((M + t - 1) / t)).
    pose proof (Z.div_mod (M + t - 1) t ltac:(lia)) as Hdm.
    pose proof (Z.mod_pos_bound (M + t - 1) t Ht) as Hmod.
    split; [ | nia].
    apply Hmem. split; [ | exists ((M + t - 1) / t); lia].
    split; [ | nia].
    apply Z.mul_nonneg_nonneg; [lia | ]. apply Z.div_pos; lia.
  - intros H500.
    pose proof (range_list_length 0 (M + t) t Ht) as Hl.
    assert (Hq : (M + t - 0 + t - 1) / t < 12).
    { apply Z.div_lt_upper_bound; [lia | ]. subst t. unfold monthly_scale.
      repeat match goal with
             | |- context [?x <=? ?y] => destruct (Z.leb_spec x y)
             end; lia. }
    lia.
Qed.

Lemma monthly_ticks_cover_witness :
  exists ticks,
    In (ECall "ax.set_yticks" [PyList (map PyInt ticks)])
       (trace (snd (Books.plot_books_per_month
                      (PyList (map PyInt [3; 0; 7; 2; 9; 4; 1; 60; 5; 8; 6; 2]))
                      (mkWorld [] []))))
    /\ (forall x, In x ticks <-> 0 <= x < 70 /\ (10 | x))
    /\ In 0 ticks
    /\ (exists x, In x ticks /\ 60 <= x)
    /\ (60 <= 500 -> (List.length ticks <= 11)%nat).
Proof.
  apply (monthly_ticks_cover [3; 0; 7; 2; 9; 4; 1; 60; 5; 8; 6; 2] (mkWorld [] [])).
  - reflexivity.
  - repeat constructor; lia.
Defined.

(** The selectors as ladders on the value of a finite number. *)
Lemma monthly_ladder (a : atom) (q : Q) (w : world) :
  num_val a = Some (XFin q) ->
  Books.calculate_ytick_interval a w
  = (Ok (PyInt (if Qle_bool q (inject_Z 10) then 1
                else if Qle_bool q (inject_Z 50) then 5
                else if Qle_bool q (inject_Z 100) then 10
                else if Qle_bool q (inject_Z 500) then 50
                else 100)), w).
Proof.
  intros Hval. unfold Books.calculate_ytick_interval, try_except.
  repeat (unfold bind at 1; unfold lift at 1; rewrite (py_le_fin _ _ _ Hval);
          match goal with |- context [Qle_bool ?x ?y] => destruct (Qle_bool x y) end;
          [reflexivity | ]).
  reflexivity.
Qed.

Lemma weekly_ladder (a : atom) (q : Q) (w : world) :
  num_val a = Some (XFin q) ->
  Hours.calculate_ytick_interval a w
  = (Ok (PyInt (if Qle_bool q (inject_Z 5) then 1
                else if Qle_bool q (inject_Z 10) then 2
                else if Qle_bool q (inject_Z 15) then 3
                else if Qle_bool q (inject_Z 20) then 4
                else if Qle_bool q (inject_Z 24) then 5
                else 8)), w).
Proof.
  intros Hval. unfold Hours.calculate_ytick_interval, try_except.
  repeat (unfold bind at 1; unfold lift at 1; rewrite (py_le_fin _ _ _ Hval);
          match goal with |- context [Qle_bool ?x ?y] => destruct (Qle_bool x y) end;
          [reflexivity | ]).
  reflexivity.
Qed.

Lemma Qle_bool_mono (p q k : Q) :
  (p <= q)%Q -> Qle_bool q k = true -> Qle_bool p k = true.
Proof.
  intros Hpq Hq. apply Qle_bool_iff. apply Qle_bool_iff in Hq.
  now apply Qle_trans with q.
Qed.

(** X10.  Both selectors are monotone: of two finite numbers, ints or
    floats, the greater never gets the smaller tick interval. *)
Theorem tick_intervals_monotone (a b : atom) (p q : Q) (w : world) :
  num_val a = Some (XFin p) -> num_val b = Some (XFin q) -> (p <= q)%Q ->
  (exists s t,
      Books.calculate_ytick_interval a w = (Ok (PyInt s), w)
      /\ Books.calculate_ytick_interval b w = (Ok (PyInt t), w)
      /\ 1 <= s /\ s <= t /\ t <= 100)
  /\ (exists s t,
        Hours.calculate_ytick_interval a w = (Ok (PyInt s), w)
        /\ Hours.calculate_ytick_interval b w = (Ok (PyInt t), w)
        /\ 1 <= s /\ s <= t /\ t <= 8).
Proof.
  intros Ha Hb Hpq.
  assert (Hm : forall k, Qle_bool q k = true -> Qle_bool p k = true)
    by (intros k; now apply Qle_bool_mono).
  split.
  - rewrite (monthly_ladder a p w Ha), (monthly_ladder b q w Hb).
    do 2 eexists. split; [reflexivity | ]. split; [reflexivity | ].
    pose proof (Hm (inject_Z 10)) as H10. pose proof (Hm (inject_Z 50)) as H50.
    pose proof (Hm (inject_Z 100)) as H100. pose proof (Hm (inject_Z 500)) as H500.
    destruct (Qle_bool q (inject_Z 10)), (Qle_bool q (inject_Z 50)),
      (Qle_bool q (inject_Z 100)), (Qle_bool q (inject_Z 500));
      try (rewrite H10 by reflexivity); try (rewrite H50 by reflexivity);
      try (rewrite H100 by reflexivity); try (rewrite H500 by reflexivity);
      destruct (Qle_bool p (inject_Z 10)), (Qle_bool p (inject_Z 50)),
        (Qle_bool p (inject_Z 100)), (Qle_bool p (inject_Z 500)); lia.
  - rewrite (weekly_ladder a p w Ha), (weekly_ladder b q w Hb).
    do 2 eexists. split; [reflexivity | ]. split; [reflexivity | ].
    pose proof (Hm (inject_Z 5)) as H5. pose proof (Hm (inject_Z 10)) as H10.
    pose proof (Hm (inject_Z 15)) as H15. pose proof (Hm (inject_Z 20)) as H20.
    pose proof (Hm (inject_Z 24)) as H24.
    destruct (Qle_bool q (inject_Z 5)), (Qle_bool q (inject_Z 10)),
      (Qle_bool q (inject_Z 15)), (Qle_bool q (inject_Z 20)),
      (Qle_bool q (inject_Z 24));
      try (rewrite H5 by reflexivity); try (rewrite H10 by reflexivity);
      try (rewrite H15 by reflexivity); try (rewrite H20 by reflexivity);
      try (rewrite H24 by reflexivity);
      destruct (Qle_bool p (inject_Z 5)), (Qle_bool p (inject_Z 10)),
        (Qle_bool p (inject_Z 15)), (Qle_bool p (inject_Z 20)),
        (Qle_bool p (inject_Z 24)); lia.
Qed.

Lemma tick_intervals_monotone_witness :
  exists s t,
    Books.calculate_ytick_interval (PyInt 7) (mkWorld [] []) = (Ok (PyInt s), mkWorld [] [])
    /\ Books.calculate_ytick_interval (PyFloat (float_lit "70.5")) (mkWorld [] [])
       = (Ok (PyInt t), mkWorld [] [])
    /\ 1 <= s /\ s <= t /\ t <= 100.
Proof.
  refine (proj1 (tick_intervals_monotone (PyInt 7) (PyFloat (float_lit "70.5"))
                   (inject_Z 7) (4960996464525312 # 70368744177664)
                   (mkWorld [] []) _ _ _));
    vm_compute; congruence.
Defined.

(** X11.  A maximum that is no number, [None] or a string, makes either
    selector print the [TypeError] of the first comparison and return
    [None] instead of an interval. *)
Theorem tick_interval_of_non_number (a : atom) (w : world) :
  (a = PyNone \/ exists s, a = PyStr s) ->
  Books.calculate_ytick_interval a w
  = (Ok PyNone,
     mkWorld (stdin w) (trace w ++ [EPrint [Scalar (PyExc (Builtin TypeError))]]))
  /\ Hours.calculate_ytick_interval a w
     = (Ok PyNone,
        mkWorld (stdin w) (trace w ++ [EPrint [Scalar (PyExc (Builtin TypeError))]])).
Proof.
  intros [-> | [s ->]]; split; reflexivity.
Qed.

Lemma tick_interval_of_non_number_witness :
  Books.calculate_ytick_interval (PyStr "12") (mkWorld [] [])
  = (Ok PyNone, mkWorld [] [EPrint [Scalar (PyExc (Builtin TypeError))]]).
Proof.
  refine (proj1 (tick_interval_of_non_number (PyStr "12") (mkWorld [] []) _)).
  right. exists "12". reflexivity.
Defined.

(** X12.  A NaN is not below any threshold, nor is positive infinity:
    a maximum that is either falls through every rung and gets the last
    interval, 100 for the months and 8 for the week, and nothing is
    printed. *)
Theorem tick_interval_of_nan_and_infinity (a : atom) (w : world) :
  (num_val a = Some XNaN \/ num_val a = Some (XInf false)) ->
  Books.calculate_ytick_interval a w = (Ok (PyInt 100), w)
  /\ Hours.calculate_ytick_interval a w = (Ok (PyInt 8), w).
Proof.
  intros Hval.
  unfold Books.calculate_ytick_interval, Hours.calculate_ytick_interval,
    try_except, bind, lift, py_le, py_compare.
  cbn [num_val int_val option_map].
  destruct Hval as [-> | ->]; split; reflexivity.
Qed.

Lemma tick_interval_of_nan_and_infinity_witness :
  Books.calculate_ytick_interval (PyFloat (float_lit "nan")) (mkWorld [] [])
  = (Ok (PyInt 100), mkWorld [] [])
  /\ Hours.calculate_ytick_interval (PyFloat (float_lit "nan")) (mkWorld [] [])
     = (Ok (PyInt 8), mkWorld [] []).
Proof.
  apply (tick_interval_of_nan_and_infinity (PyFloat (float_lit "nan")) (mkWorld [] [])).
  left. reflexivity.
Defined.

End Scales.

(** ** Further properties of the weekly script *)

Section WeeklyScript.

Lemma float_24 :
  exists q24, float_val (float_lit "24.00") = XFin q24 /\ (q24 == 24)%Q.
Proof.
  eexists. split; [vm_compute; reflexivity | reflexivity].
Qed.

(** The element test of the weekly validator never raises, leaves the
    console alone, and holds of the floats strictly between 0 and 24. *)
Lemma hours_ok_run (a : atom) (w : world) :
  Hours.hours_ok a w = (Ok (in_day a), w).
Proof.
  destruct a as [ | b | z | f | s | e | what]; try reflexivity.
  unfold Hours.hours_ok, in_day. cbn [isinstance_float].
  unfold bind, lift, py_lt, py_compare. cbn [num_val].
  change (float_val (float_lit "0.0")) with (XFin 0).
  destruct float_24 as [q24 [E24 Hq24]]. rewrite E24.
  destruct (float_val f) as [ | [ | ] | q]; try reflexivity.
  cbn [xcompare rbind].
  rewrite (Qcompare_comp q q (Qeq_refl q) q24 24%Q Hq24).
  destruct (0 ?= q)%Q; reflexivity.
Qed.

Lemma hours_loop_run (items : list atom) (flag : bool) (w : world) :
  for_each items
    (fun verification hours =>
       ok <- Hours.hours_ok hours;;
       ret (if ok then true else verification))
    flag w
  = (Ok (flag || existsb in_day items), w).
Proof.
  revert flag. induction items as [ | a items IH]; intros flag.
  - cbn. now rewrite orb_false_r.
  - cbn [for_each existsb]. unfold bind at 1. unfold bind at 1.
    rewrite hours_ok_run. unfold ret at 1. rewrite IH.
    destruct (in_day a), flag; reflexivity.
Qed.

Lemma verify_weekly_data_of_7 (l : list atom) (w : world) :
  List.length l = 7%nat ->
  Hours.verify_weekly_data (PyList l) w = (Ok (PyBool (existsb in_day l)), w).
Proof.
  intros Hlen. unfold Hours.verify_weekly_data, try_except.
  unfold bind at 1. cbn [py_len lift]. rewrite Hlen.
  cbn [Z.of_nat Z.eqb Pos.of_succ_nat Pos.succ Pos.eqb].
  unfold bind at 1. cbn [py_iter lift]. unfold bind at 1.
  now rewrite hours_loop_run.
Qed.

Lemma verify_weekly_data_other_length (l : list atom) (w : world) :
  List.length l <> 7%nat ->
  Hours.verify_weekly_data (PyList l) w
  = (Ok (PyBool false),
     mkWorld (stdin w) (trace w ++ [EPrint [Scalar (PyStr hours_shape_message)]])).
Proof.
  intros Hlen. unfold Hours.verify_weekly_data, try_except.
  unfold bind at 1. cbn [py_len lift].
  destruct (Z.of_nat (List.length l) =? 7) eqn:E; [ | reflexivity].
  apply Z.eqb_eq in E. lia.
Qed.



Lemma in_day_spec (a : atom) :
  in_day a = true <->
  exists f q, a = PyFloat f /\ float_val f = XFin q /\ (0 < q)%Q /\ (q < 24)%Q.
Proof.
  split.
  - destruct a as [ | b | z | f | s | e | what]; try discriminate.
    unfold in_day. destruct (float_val f) as [ | neg | q] eqn:Ef; try discriminate.
    destruct (0 ?= q)%Q eqn:E0; try discriminate.
    destruct (q ?= 24)%Q eqn:E24; try discriminate.
    intros _. exists f, q. repeat split; assumption.
  - intros [f [q [-> [Ef [H0 H24]]]]]. unfold in_day. rewrite Ef.
    rewrite (proj1 (Qlt_alt 0 q) H0), (proj1 (Qlt_alt q 24) H24). reflexivity.
Qed.


(** X14.  Both ends of the day are shut out, silently.  A week of seven
    floats each of which is at most 0 or at least 24, such as a week
    with no reading at all, is rejected: the validator returns [False]
    and prints nothing. *)
Theorem verify_weekly_data_silent_rejection (fs : list float) (w : world) :
  List.length fs = 7%nat ->
  Forall (fun f => exists q, float_val f = XFin q /\ ((q <= 0)%Q \/ (24 <= q)%Q)) fs ->
  Hours.verify_weekly_data (PyList (map PyFloat fs)) w = (Ok (PyBool false), w).
Proof.
  intros Hlen Hall.
  rewrite verify_weekly_data_of_7 by now rewrite length_map.
  do 3 f_equal.
  destruct (existsb in_day (map PyFloat fs)) eqn:E; [ | reflexivity].
  apply existsb_exists in E. destruct E as [a [Hin Ha]].
  apply in_map_iff in Hin. destruct Hin as [f [<- Hin]].
  rewrite Forall_forall in Hall. destruct (Hall f Hin) as [q [Ef Hq]].
  apply in_day_spec in Ha. destruct Ha as [f' [q' [Heq [Ef' [H0 H24]]]]].
  inversion Heq; subst f'. rewrite Ef in Ef'. inversion Ef'; subst q'.
  destruct Hq as [Hq | Hq]; exfalso.
  - exact (Qlt_not_le _ _ H0 Hq).
  - exact (Qlt_not_le _ _ H24 Hq).
Qed.

Lemma verify_weekly_data_silent_rejection_witness :
  Hours.verify_weekly_data
    (PyList (map PyFloat
               [float_lit "0"; float_lit "0.0"; float_lit "24"; float_lit "0";
                float_lit "-3"; float_lit "24.0"; float_lit "30.5"]))
    (mkWorld [] [])
  = (Ok (PyBool false), mkWorld [] []).
Proof.
  apply verify_weekly_data_silent_rejection.
  - reflexivity.
  - repeat constructor; eexists;
      (split; [vm_compute; reflexivity | vm_compute; intuition congruence]).
Defined.



Lemma as_floats_length (tokens : list string) (l : list atom) :
  as_floats tokens = Ok l -> List.length l = List.length tokens.
Proof.
  revert l. induction tokens as [ | t tokens IH]; intros l H.
  - now inversion H.
  - cbn [as_floats] in H.
    destruct (float_of_str t) as [f | e]; [ | discriminate]. cbn [rbind] in H.
    destruct (as_floats tokens) as [l' | e]; [ | discriminate]. cbn [rbind] in H.
    inversion H. cbn [List.length]. now rewrite (IH l' eq_refl).
Qed.

Lemma weekly_collect_loop (tokens : list string) (acc : list atom) (w : world) :
  for_each tokens
    (fun weekly_data token =>
       hours <- lift (float_of_str token);;
       ret (weekly_data ++ [PyFloat hours]))
    acc w
  = match as_floats tokens with
    | Ok l => (Ok (acc ++ l), w)
    | Raise e => (Raise e, w)
    end.
Proof.
  revert acc. induction tokens as [ | token tokens IH]; intros acc.
  - cbn. now rewrite app_nil_r.
  - cbn [for_each as_floats]. unfold bind at 1, bind at 1, lift at 1.
    destruct (float_of_str token) as [hours | e]; [ | reflexivity].
    cbn [rbind]. unfold ret at 1. rewrite IH.
    destruct (as_floats tokens) as [l | e]; [ | reflexivity].
    cbn [rbind]. now rewrite <- app_assoc.
Qed.

(** The weekly collector has no handler: it returns the floats, or
    raises. *)
Lemma get_weekly_data_run (w : world) :
  Hours.get_weekly_data w
  = match stdin w with
    | [] => (Raise (Builtin EOFError), mkWorld [] (trace w ++ [EPrompt hours_prompt]))
    | line :: rest =>
        match as_floats (py_split line) with
        | Ok l => (Ok (PyList l), mkWorld rest (trace w ++ [EPrompt hours_prompt]))
        | Raise e => (Raise e, mkWorld rest (trace w ++ [EPrompt hours_prompt]))
        end
    end.
Proof.
  unfold Hours.get_weekly_data, bind at 1, input.
  destruct (stdin w) as [ | line rest]; [reflexivity | ].
  unfold bind at 1. rewrite weekly_collect_loop.
  now destruct (as_floats (py_split line)).
Qed.





(** X17.  End to end, the wrong count.  When every token is a number
    but there are not 7 of them, [main] prints the shape message, once,
    and draws nothing. *)
Theorem hours_main_wrong_count
    (line : string) (rest : list string) (tr : list event) (l : list atom) :
  as_floats (py_split line) = Ok l ->
  List.length l <> 7%nat ->
  Hours.main (mkWorld (line :: rest) tr)
  = (Ok PyNone,
     mkWorld rest
       (tr ++ [EPrompt hours_prompt; EPrint [Scalar (PyStr hours_shape_message)]])).
Proof.
  intros Hc Hlen. unfold Hours.main, try_except. unfold bind at 1.
  rewrite get_weekly_data_run. cbn [stdin trace]. rewrite Hc.
  unfold bind at 1. rewrite (verify_weekly_data_other_length _ _ Hlen).
  cbn [stdin trace]. unfold ret. now rewrite <- app_assoc.
Qed.

Lemma hours_main_wrong_count_witness :
  Hours.main (mkWorld ["8 7.5"] [])
  = (Ok PyNone,
     mkWorld []
       ([] ++ [EPrompt hours_prompt; EPrint [Scalar (PyStr hours_shape_message)]])).
Proof.
  apply (hours_main_wrong_count "8 7.5" [] []
           [PyFloat (float_lit "8"); PyFloat (float_lit "7.5")]).
  - reflexivity.
  - simpl. lia.
Defined.

(** X18.  End to end, the week that says nothing.  Seven numbers none
    of which lies strictly between 0 and 24 leave no trace but the
    prompt: [main] prints no message and draws nothing. *)
Theorem hours_main_silent
    (line : string) (rest : list string) (tr : list event) (l : list atom) :
  as_floats (py_split line) = Ok l ->
  List.length l = 7%nat ->
  Forall (fun a => in_day a = false) l ->
  Hours.main (mkWorld (line :: rest) tr)
  = (Ok PyNone, mkWorld rest (tr ++ [EPrompt hours_prompt])).
Proof.
  intros Hc Hlen Hall. unfold Hours.main, try_except. unfold bind at 1.
  rewrite get_weekly_data_run. cbn [stdin trace]. rewrite Hc.
  unfold bind at 1. rewrite (verify_weekly_data_of_7 _ _ Hlen).
  assert (E : existsb in_day l = false).
  { destruct (existsb in_day l) eqn:E; [ | reflexivity].
    apply existsb_exists in E. destruct E as [a [Hin Ha]].
    rewrite Forall_forall in Hall. rewrite (Hall a Hin) in Ha. discriminate. }
  rewrite E. reflexivity.
Qed.

Lemma hours_main_silent_witness :
  Hours.main (mkWorld ["0 0 0 0 0 0 0"] [])
  = (Ok PyNone, mkWorld [] ([] ++ [EPrompt hours_prompt])).
Proof.
  apply (hours_main_silent "0 0 0 0 0 0 0" [] []
           (map (fun s => PyFloat (float_lit s)) ["0"; "0"; "0"; "0"; "0"; "0"; "0"])).
  - reflexivity.
  - reflexivity.
  - repeat constructor.
Defined.

(** X19.  Given a list of any other length than 7, the weekly renderer
    calls no library at all: it prints the [ValueError] it raised for
    itself and returns [None]. *)
Theorem plot_hours_spent_per_day_wrong_length (l : list atom) (w : world) :
  List.length l <> 7%nat ->
  Hours.plot_hours_spent_per_day (PyList l) w
  = (Ok PyNone,
     mkWorld (stdin w)
       (trace w
        ++ [EPrint [Scalar (PyExc (Raised ValueError
                      "The length hours_spent lists must be equal to 7, corresponding to 7 days of a week."))]])).
Proof.
  intros Hlen. unfold Hours.plot_hours_spent_per_day, try_except.
  unfold bind at 1. cbn [py_len lift].
  destruct (Z.of_nat (List.length l) =? 7) eqn:E.
  - apply Z.eqb_eq in E. lia.
  - reflexivity.
Qed.

Lemma plot_hours_spent_per_day_wrong_length_witness :
  calls (trace (snd (Hours.plot_hours_spent_per_day
                       (PyList [PyFloat (float_lit "8")]) (mkWorld [] []))))
  = [].
Proof.
  rewrite (plot_hours_spent_per_day_wrong_length
             [PyFloat (float_lit "8")] (mkWorld [] [])).
  - reflexivity.
  - simpl. lia.
Defined.












End WeeklyScript.

(** ** Further properties of the image script *)

Section ImageScript.

Lemma length_append (s t : string) :
  String.length (String.append s t) = (String.length s + String.length t)%nat.
Proof.
  induction s as [ | c s IH]; [reflexivity | ]. cbn. now rewrite IH.
Qed.

(** A call either returns a good value, or is the call that found no
    frame left. *)
Lemma get_user_prompts_outcome (depth : nat) (w w' : world) (r : result atom) :
  Dalle.get_user_prompts depth w = (r, w') ->
  match r with
  | Ok a => good_prompt a
  | Raise _ => depth = O
  end.
Proof.
  revert w w' r. induction depth as [ | depth IH]; intros w w' r.
  - cbn [Dalle.get_user_prompts]. unfold raise. now inversion 1.
  - cbn [Dalle.get_user_prompts]. unfold try_except, bind at 1, input.
    assert (Hrec : forall w0 r0 w1,
               (let (r1, w2) :=
                  bind (Dalle.get_user_prompts depth) (fun sel_prompt => ret sel_prompt) w0
                in match r1 with
                   | Ok a => (Ok a, w2)
                   | Raise e =>
                       bind (print [Scalar (PyStr "Error encountered: ");
                                    Scalar (PyExc e)])
                         (fun _ => ret PyNone) w2
                   end) = (r0, w1) ->
               match r0 with Ok a => good_prompt a | Raise _ => S depth = O end).
    { intros w0 r0 w1. unfold bind at 1.
      destruct (Dalle.get_user_prompts depth w0) as [[a | e] w2] eqn:Hrun.
      - pose proof (IH _ _ _ Hrun) as Hg. cbn. inversion 1; subst. exact Hg.
      - cbn. inversion 1; subst. now left. }
    destruct (stdin w) as [ | choice rest].
    { cbn. inversion 1; subst. now left. }
    destruct (String.eqb choice "1");
      [inversion 1; subst; right; eexists; split; [reflexivity | vm_compute; lia] | ].
    destruct (String.eqb choice "2");
      [inversion 1; subst; right; eexists; split; [reflexivity | vm_compute; lia] | ].
    destruct (String.eqb choice "3");
      [inversion 1; subst; right; eexists; split; [reflexivity | vm_compute; lia] | ].
    destruct (String.eqb choice "4");
      [inversion 1; subst; right; eexists; split; [reflexivity | vm_compute; lia] | ].
    destruct (String.eqb choice "5").
    + unfold bind at 1, input. cbn [stdin trace].
      destruct rest as [ | line rest].
      { cbn. inversion 1; subst. now left. }
      destruct (Z.of_nat (String.length (String.append (String.append line ".") newline))
                >? 280) eqn:Hlen.
      * unfold bind at 1. cbn [print emit]. apply Hrec.
      * unfold ret. inversion 1; subst. right. eexists. split; [reflexivity | ].
        pose proof (Zgt_cases
          (Z.of_nat (String.length (String.append (String.append line ".") newline))) 280)
          as Hc.
        rewrite Hlen in Hc. lia.
    + unfold bind at 1. cbn [print emit]. apply Hrec.
Qed.

(** X21.  Whatever is typed, and however often it is rejected, a call of
    [get_user_prompts] with a frame to run in raises nothing and returns
    either [None] or a prompt of at most 280 characters. *)
Theorem get_user_prompts_bounded (depth : nat) (w : world) :
  exists a w',
    Dalle.get_user_prompts (S depth) w = (Ok a, w')
    /\ (a = PyNone \/ exists s, a = PyStr s /\ (String.length s <= 280)%nat).
Proof.
  destruct (Dalle.get_user_prompts (S depth) w) as [[a | e] w'] eqn:Hrun.
  - exists a, w'. split; [reflexivity | ]. exact (get_user_prompts_outcome _ _ _ _ Hrun).
  - pose proof (get_user_prompts_outcome _ _ _ _ Hrun) as H. discriminate H.
Qed.

Lemma custom_length (line : string) :
  Z.of_nat (String.length (String.append (String.append line ".") newline))
  = Z.of_nat (String.length line) + 2.
Proof.
  rewrite !length_append. cbn. lia.
Qed.

(** X22.  A custom prompt is accepted up to 278 characters, not 280:
    the full stop and the line feed the script appends count against the
    limit.  An accepted prompt is returned with the two appended, after
    the menu and the second prompt, nothing printed. *)
Theorem get_user_prompts_custom
    (depth : nat) (line : string) (rest : list string) (tr : list event) :
  (String.length line <= 278)%nat ->
  Dalle.get_user_prompts (S depth) (mkWorld ("5" :: line :: rest) tr)
  = (Ok (PyStr (String.append (String.append line ".") newline)),
     mkWorld rest
       (tr ++ [EPrompt Dalle.menu;
               EPrompt (String.append "Your prompt within 280 characters: " newline)])).
Proof.
  intros Hlen. cbn [Dalle.get_user_prompts].
  unfold try_except, bind at 1, input. cbn [stdin trace].
  change (String.eqb "5" "1") with false. change (String.eqb "5" "2") with false.
  change (String.eqb "5" "3") with false. change (String.eqb "5" "4") with false.
  change (String.eqb "5" "5") with true. cbv iota.
  unfold bind at 1. cbn [stdin trace].
  rewrite custom_length.
  assert (E : (Z.of_nat (String.length line) + 2 >? 280) = false).
  { pose proof (Zgt_cases (Z.of_nat (String.length line) + 2) 280) as Hc.
    destruct (Z.of_nat (String.length line) + 2 >? 280); [lia | reflexivity]. }
  rewrite E. unfold ret. now rewrite <- app_assoc.
Qed.

Lemma get_user_prompts_custom_witness :
  Dalle.get_user_prompts 1 (mkWorld ["5"; "a cat on a mat"] [])
  = (Ok (PyStr (String.append (String.append "a cat on a mat" ".") newline)),
     mkWorld []
       ([] ++ [EPrompt Dalle.menu;
               EPrompt (String.append "Your prompt within 280 characters: " newline)])).
Proof.
  apply (get_user_prompts_custom 0 "a cat on a mat" [] []).
  simpl. lia.
Defined.

(** With a frame left, the call the function makes to itself comes back
    with a value, so the handler around it stays out of the way. *)
Lemma reprompt_run (depth : nat) (w : world) :
  (let (r, w') :=
     bind (Dalle.get_user_prompts (S depth)) (fun sel_prompt => ret sel_prompt) w
   in match r with
      | Ok a => (Ok a, w')
      | Raise e =>
          bind (print [Scalar (PyStr "Error encountered: "); Scalar (PyExc e)])
            (fun _ => ret PyNone) w'
      end)
  = Dalle.get_user_prompts (S depth) w.
Proof.
  unfold bind at 1.
  destruct (Dalle.get_user_prompts (S depth) w) as [[a | e] w'] eqn:Hrun.
  - reflexivity.
  - pose proof (get_user_prompts_outcome _ _ _ _ Hrun) as H. discriminate H.
Qed.

(** X23.  A custom prompt of more than 278 characters is refused: the
    message with the count, two more than was typed, is printed, and the
    function starts over on what is left of the input, as a call made
    afresh would. *)
Theorem get_user_prompts_custom_too_long
    (depth : nat) (line : string) (rest : list string) (tr : list event) :
  (278 < String.length line)%nat ->
  Dalle.get_user_prompts (S (S depth)) (mkWorld ("5" :: line :: rest) tr)
  = Dalle.get_user_prompts (S depth)
      (mkWorld rest
         (tr ++ [EPrompt Dalle.menu;
                 EPrompt (String.append "Your prompt within 280 characters: " newline);
                 EPrint [Scalar (PyStr (Dalle.too_long_message
                                          (Z.of_nat (String.length line) + 2)))]])).
Proof.
  intros Hlen. remember (S depth) as d eqn:Hd. cbn [Dalle.get_user_prompts]. subst d.
  unfold try_except, bind at 1, input. cbn [stdin trace].
  change (String.eqb "5" "1") with false. change (String.eqb "5" "2") with false.
  change (String.eqb "5" "3") with false. change (String.eqb "5" "4") with false.
  change (String.eqb "5" "5") with true. cbv iota.
  unfold bind at 1. cbn [stdin trace].
  rewrite custom_length.
  assert (E : (Z.of_nat (String.length line) + 2 >? 280) = true).
  { pose proof (Zgt_cases (Z.of_nat (String.length line) + 2) 280) as Hc.
    destruct (Z.of_nat (String.length line) + 2 >? 280); [reflexivity | lia]. }
  rewrite E. unfold bind at 1. cbn [print emit stdin trace].
  rewrite reprompt_run. now rewrite <- !app_assoc.
Qed.

Lemma get_user_prompts_custom_too_long_witness :
  Dalle.get_user_prompts 2 (mkWorld ["5"; letters 279; "1"] [])
  = Dalle.get_user_prompts 1
      (mkWorld ["1"]
         ([] ++ [EPrompt Dalle.menu;
                 EPrompt (String.append "Your prompt within 280 characters: " newline);
                 EPrint [Scalar (PyStr (Dalle.too_long_message
                                          (Z.of_nat (String.length (letters 279)) + 2)))]])).
Proof.
  apply (get_user_prompts_custom_too_long 0 (letters 279) ["1"] []).
  vm_compute. lia.
Defined.

(** X24.  Any line other than 1, 2, 3, 4 or 5 is refused as a choice:
    the message is printed and the function starts over on what is left
    of the input, as a call made afresh would. *)
Theorem get_user_prompts_invalid_choice
    (depth : nat) (choice : string) (rest : list string) (tr : list event) :
  ~ In choice ["1"; "2"; "3"; "4"; "5"] ->
  Dalle.get_user_prompts (S (S depth)) (mkWorld (choice :: rest) tr)
  = Dalle.get_user_prompts (S depth)
      (mkWorld rest
         (tr ++ [EPrompt Dalle.menu;
                 EPrint [Scalar (PyStr "Invalid input for prompt selection, please try again.")]])).
Proof.
  intros Hno. remember (S depth) as d eqn:Hd. cbn [Dalle.get_user_prompts]. subst d.
  unfold try_except, bind at 1, input. cbn [stdin trace].
  assert (E : forall k, In k ["1"; "2"; "3"; "4"; "5"] -> String.eqb choice k = false).
  { intros k Hk. apply String.eqb_neq. intros ->. contradiction. }
  rewrite (E "1"), (E "2"), (E "3"), (E "4"), (E "5") by (simpl; tauto).
  unfold bind at 1. cbn [print emit stdin trace].
  rewrite reprompt_run. now rewrite <- !app_assoc.
Qed.

Lemma get_user_prompts_invalid_choice_witness :
  Dalle.get_user_prompts 2 (mkWorld ["six"; "2"] [])
  = Dalle.get_user_prompts 1
      (mkWorld ["2"]
         ([] ++ [EPrompt Dalle.menu;
                 EPrint [Scalar (PyStr "Invalid input for prompt selection, please try again.")]])).
Proof.
  apply (get_user_prompts_invalid_choice 0 "six" ["2"] []).
  simpl. intuition discriminate.
Defined.

(** X25.  [get_complete_prompt] on what the two prompting functions can
    hand it, a string or [None] each.  Two strings give the prompt, the
    separator and the text, in that order.  If either is [None] the
    concatenation fails: the error is printed and the function returns
    [False], not [None]. *)
Theorem get_complete_prompt_outcome (sel_text user_prompt : atom) (w : world) :
  (sel_text = PyNone \/ exists s, sel_text = PyStr s) ->
  (user_prompt = PyNone \/ exists s, user_prompt = PyStr s) ->
  Dalle.get_complete_prompt sel_text user_prompt w
  = match user_prompt, sel_text with
    | PyStr u, PyStr s =>
        (Ok (PyStr (String.append (String.append u " Description: ") s)), w)
    | _, _ =>
        (Ok (PyBool false),
         mkWorld (stdin w)
           (trace w ++ [EPrint [Scalar (PyStr "Error encountered: ");
                                Scalar (PyExc (Builtin TypeError))]]))
    end.
Proof.
  intros [-> | [s ->]] [-> | [u ->]]; reflexivity.
Qed.

Lemma get_complete_prompt_outcome_witness :
  Dalle.get_complete_prompt (PyStr "a red door") PyNone (mkWorld [] [])
  = (Ok (PyBool false),
     mkWorld []
       ([] ++ [EPrint [Scalar (PyStr "Error encountered: ");
                       Scalar (PyExc (Builtin TypeError))]])).
Proof.
  apply (get_complete_prompt_outcome (PyStr "a red door") PyNone (mkWorld [] [])).
  - right. exists "a red door". reflexivity.
  - left. reflexivity.
Defined.

End ImageScript.

(** ** No exception escapes *)

Section Handlers.




End Handlers.
